(** * csv-stats-polars-python: a shallow embedding of [src/main.py]

    The program reads one column of a CSV file through the Polars query
    engine, computes [count], [min], [max], [sum] and [mean] of it, and
    prints them.  The development has four parts:

    - [Binary64]: IEEE-754 binary64 values and the operations the program
      needs, on top of the Standard Library's [SpecFloat];
    - [Py]: the exceptions and the few string operations of Python
      that [main.py] uses;
    - [Polars]: the part of the Polars API that [main.py] calls;
    - the functions of [main.py] themselves, and the theorems about them. *)

From Stdlib Require Import ZArith List String Ascii Bool Lia.
From Stdlib Require Import DecimalString DecimalPos.
From Stdlib Require Import SpecFloat.
Import ListNotations.

Local Open Scope string_scope.
Local Open Scope Z_scope.

(* ================================================================== *)
(** * Binary64 floating point *)
(* ================================================================== *)

Module Binary64.

Definition prec : Z := 53.
Definition emax : Z := 1024.

(** A Python [float], a value of a Polars [Float64] column. *)
Definition t : Type := spec_float.

Definition add : t -> t -> t := SFadd prec emax.
Definition div : t -> t -> t := SFdiv prec emax.
Definition ltb : t -> t -> bool := SFltb.
Definition leb : t -> t -> bool := SFleb.

Definition zero : t := S754_zero false.

(** Conversion of an integer, rounding to nearest, ties to even. *)
Definition of_Z (z : Z) : t := binary_normalize prec emax z 0 false.

Definition is_nan (x : t) : bool :=
  match x with S754_nan => true | _ => false end.

Definition is_finite (x : t) : bool :=
  match x with S754_zero _ | S754_finite _ _ _ => true | _ => false end.

(** [m * 10^e] with sign [s], correctly rounded: the value of a decimal
    literal with digits [m] and decimal exponent [e]. *)
Definition of_decimal (s : bool) (m : Z) (e : Z) : t :=
  match m with
  | Zpos _ =>
      if 0 <=? e
      then binary_normalize prec emax (if s then - (m * 10 ^ e) else m * 10 ^ e) 0 s
      else
        let '(q, e', l) :=
          SFdiv_core_binary prec emax m 0 (10 ^ (- e)) 0 in
        binary_round_aux prec emax s q e' l
  | _ => S754_zero s
  end.

(** ** Reading a decimal literal

    The conversion of a text cell to [Float64]: an optional sign, then
    [inf], [infinity] or [nan] in any letter case, or decimal digits with
    an optional fraction and an optional exponent.  At least one digit is
    required before the exponent.  The result is correctly rounded. *)

Definition digit_of (c : ascii) : option Z :=
  let n := Z.of_nat (nat_of_ascii c) in
  if (48 <=? n) && (n <=? 57) then Some (n - 48) else None.

(** A maximal run of digits: the value accumulated on [acc], the number of
    digits read added to [n], and the rest of the text. *)
Fixpoint read_digits (s : string) (acc n : Z) : Z * Z * string :=
  match s with
  | String c r =>
      match digit_of c with
      | Some d => read_digits r (10 * acc + d) (n + 1)
      | None => (acc, n, s)
      end
  | EmptyString => (acc, n, s)
  end.

Definition read_sign (s : string) : bool * string :=
  match s with
  | String "-" r => (true, r)
  | String "+" r => (false, r)
  | _ => (false, s)
  end.

Definition read_exponent (s : string) : option Z :=
  match s with
  | EmptyString => Some 0
  | String c r =>
      if (Ascii.eqb c "e" || Ascii.eqb c "E")%bool then
        let '(neg, r1) := read_sign r in
        let '(v, n, r2) := read_digits r1 0 0 in
        if (0 <? n) && String.eqb r2 "" then Some (if neg then - v else v)
        else None
      else None
  end.

Definition lower (c : ascii) : ascii :=
  let n := nat_of_ascii c in
  if (Nat.leb 65 n && Nat.leb n 90)%bool then ascii_of_nat (n + 32) else c.

Fixpoint lowercase (s : string) : string :=
  match s with
  | EmptyString => EmptyString
  | String c r => String (lower c) (lowercase r)
  end.

Definition of_string (s : string) : option t :=
  let '(neg, r) := read_sign s in
  let w := lowercase r in
  if (String.eqb w "inf" || String.eqb w "infinity")%bool
  then Some (S754_infinity neg)
  else if String.eqb w "nan" then Some S754_nan
  else
    let '(m1, n1, r1) := read_digits r 0 0 in
    let '(m, n2, r2) :=
      match r1 with
      | String "." r' => read_digits r' m1 0
      | _ => (m1, 0, r1)
      end in
    if n1 + n2 =? 0 then None
    else match read_exponent r2 with
         | Some e => Some (of_decimal neg m (e - n2))
         | None => None
         end.

(** ** Fixed-point rendering with four decimals

    Python's [format(x, ".4f")]: the exact binary value is rounded to four
    decimals, ties to even; infinities and NaN have no digits. *)

Definition round_half_even (num den : Z) : Z :=
  let q := num / den in
  let r := num mod den in
  match 2 * r ?= den with
  | Lt => q
  | Gt => q + 1
  | Eq => if Z.even q then q else q + 1
  end.

(** [m * 2^e * 10^4], rounded to an integer. *)
Definition scaled4 (m : positive) (e : Z) : Z :=
  if 0 <=? e then Zpos m * 2 ^ e * 10000
  else round_half_even (Zpos m * 10000) (2 ^ (- e)).

Definition digit_char (d : Z) : ascii := ascii_of_nat (48 + Z.to_nat d).

Definition decimal_of_Z (z : Z) : string := NilZero.string_of_int (Z.to_int z).

Definition frac4 (n : Z) : string :=
  String (digit_char (n / 1000 mod 10))
    (String (digit_char (n / 100 mod 10))
       (String (digit_char (n / 10 mod 10))
          (String (digit_char (n mod 10)) EmptyString))).

Definition fixed4 (neg : bool) (n : Z) : string :=
  ((if neg then "-" else "") ++ decimal_of_Z (n / 10000) ++ "." ++ frac4 (n mod 10000))%string.

Definition format_4f (x : t) : string :=
  match x with
  | S754_nan => "nan"
  | S754_infinity s => if s then "-inf" else "inf"
  | S754_zero s => fixed4 s 0
  | S754_finite s m e => fixed4 s (scaled4 m e)
  end.

End Binary64.

(* ================================================================== *)
(** * Python: exceptions and results *)
(* ================================================================== *)

(** The exception classes that can occur in a run.  The first three are
    the ones [process_csv] raises itself ([OSError] is the parent class of
    [FileNotFoundError]; a plain [OSError] is not a [FileNotFoundError]);
    [KeyError] and [TypeError] are Python's own;
    the rest are classes of [polars.exceptions].  All of them derive from
    [Exception], so [except Exception] catches every one. *)
Inductive Exception : Type :=
| FileNotFoundError (msg : string)
| OSError (msg : string)
| ValueError (msg : string)
| RuntimeError (msg : string)
| KeyError (msg : string)
| TypeError (msg : string)
| ColumnNotFoundError (msg : string)
| ComputeError (msg : string)
| DuplicateError (msg : string)
| InvalidOperationError (msg : string)
| NoDataError (msg : string)
| OutOfBoundsError (msg : string).

(** [str(e)], as used by [f"{e}"] and [print(e)]. *)
Definition str (e : Exception) : string :=
  match e with
  | FileNotFoundError m | OSError m | ValueError m | RuntimeError m
  | KeyError m
  | TypeError m | ColumnNotFoundError m | ComputeError m | DuplicateError m
  | InvalidOperationError m | NoDataError m | OutOfBoundsError m => m
  end.

(** A computation returns a value or raises. *)
Inductive result (A : Type) : Type :=
| Ok (a : A)
| Raise (e : Exception).

Arguments Ok {A} a.
Arguments Raise {A} e.

Definition bind {A B : Type} (r : result A) (k : A -> result B) : result B :=
  match r with
  | Ok a => k a
  | Raise e => Raise e
  end.

Notation "x <- r ;; k" := (bind r (fun x => k))
  (at level 61, r at next level, right associativity).

(** A value of a cell as Python sees it. *)
Inductive PyVal : Type :=
| PyNone
| PyInt (n : Z)
| PyFloat (x : Binary64.t)
| PyBool (b : bool)
| PyStr (s : string).

(** A [dict] with string keys, in insertion order. *)
Definition dict : Type := list (string * PyVal).

(** [d[key]]. *)
Fixpoint getitem (d : dict) (key : string) : result PyVal :=
  match d with
  | [] => Raise (KeyError key)
  | (k, v) :: d' => if String.eqb k key then Ok v else getitem d' key
  end.

(* ================================================================== *)
(** * Polars: the part of the API that [main.py] calls *)
(* ================================================================== *)

(** Polars is a library that [main.py] imports; its code is not part of
    the repository.  This module states, call by call, what the library
    does for the calls that [main.py] makes: [scan_csv] is lazy, [collect]
    resolves the plan against the header before it reads any cell and
    then reads the selected columns only, [col] reads [*] and [^...$] as
    patterns, [cast] is strict unless told otherwise, the aggregations
    skip nulls, the [sum] of no value is zero, and [row] fails on an
    index past the last row.  What the library leaves open, or what
    differs between its releases, is a parameter of [Engine]: the order
    in which a sum is taken, which of two equal values a minimum keeps,
    the text of a message, the moment the file is opened.  Reading the
    CSV text itself is left out: a file is given by its header and by
    what the reader makes of each column. *)

Module pl.

(** ** Columns and frames *)

(** A column with its dtype.  A cell is [None] when it is null.  The CSV
    reader produces [Int64], [Float64], [Boolean] and [String] columns
    (a column whose cells are all null is a [String] column); [count]
    produces [UInt32]. *)
Inductive Series : Type :=
| Int64Series (v : list (option Z))
| Float64Series (v : list (option Binary64.t))
| BooleanSeries (v : list (option bool))
| StringSeries (v : list (option string))
| UInt32Series (v : list (option Z)).

(** A frame: named columns, in order. *)
Definition DataFrame : Type := list (string * Series).

Definition columns (df : DataFrame) : list string := map fst df.

Definition len (s : Series) : nat :=
  match s with
  | Int64Series v => List.length v
  | Float64Series v => List.length v
  | BooleanSeries v => List.length v
  | StringSeries v => List.length v
  | UInt32Series v => List.length v
  end.

Definition height (df : DataFrame) : nat :=
  match df with
  | [] => 0%nat
  | (_, s) :: _ => len s
  end.

Fixpoint get_column (df : DataFrame) (name : string) : option Series :=
  match df with
  | [] => None
  | (n, s) :: df' => if String.eqb n name then Some s else get_column df' name
  end.

(** ** Files *)

(** Why the reader rejects a file or a column: the file is empty, or the
    text is not valid delimited data (ragged rows, bad encoding, a cell
    that does not fit the dtype inferred for its column). *)
Inductive CsvError : Type :=
| EmptyFile
| ParseFailure (msg : string).

Definition csv_exception (e : CsvError) : Exception :=
  match e with
  | EmptyFile => NoDataError "empty CSV"
  | ParseFailure msg => ComputeError msg
  end.

(** What the reader makes of one column: its cells, or an error when it
    comes to read them. *)
Inductive Cells : Type :=
| Read (s : Series)
| Unreadable (e : CsvError).

(** What a path resolves to: nothing; a file in which the reader finds
    no header ([Malformed]: the empty file); or a file with a header,
    each column of which can be read or not ([Table]).  The engine reads
    the header first and then only the columns the plan selects, so an
    unreadable column does no harm unless it is selected. *)
Inductive File : Type :=
| Missing
| Malformed (e : CsvError)
| Table (cols : list (string * Cells)).

Definition header (cols : list (string * Cells)) : list string :=
  map fst cols.

Fixpoint lookup (cols : list (string * Cells)) (name : string)
  : option Cells :=
  match cols with
  | [] => None
  | (n, c) :: cols' => if String.eqb n name then Some c else lookup cols' name
  end.

(** A file that reads as the frame [df]: every column can be read. *)
Definition Csv (df : DataFrame) : File :=
  Table (map (fun c => (fst c, Read (snd c))) df).

Definition Path : Type := string.

Definition FileSystem : Type := Path -> File.

(** ** The engine

    What the program cannot see in its own text is a parameter of the
    engine:
    - [opens_at_scan]: whether [scan_csv] opens the file and reads its
      header at once, or leaves that to [collect].  Polars defers it to
      [collect] (the comment at [main.py:28-29] says the same); older
      releases opened the file in [scan_csv].
    - [missing_error path]: what such an older release raises from
      [scan_csv] when there is no file ([OSError] in one release,
      [ComputeError] in another).
    - [is_match pattern name]: the regular-expression matcher behind
      [pl.col("^...$")].
    - [tie_min a b], [tie_max a b]: whether [min] or [max] keeps the
      first of two values that compare equal ([0.0] and [-0.0]).
    - [total cells]: the sum of a column that has a value.  The result
      depends on the order of the additions, which the engine chooses
      (blocks, lanes, chunks).
    - [cast_text name column]: the text of the error of a failed cast. *)
Record Engine : Type := {
  opens_at_scan : bool;
  missing_error : Path -> Exception;
  is_match : string -> string -> bool;
  tie_min : Binary64.t -> Binary64.t -> bool;
  tie_max : Binary64.t -> Binary64.t -> bool;
  total : list (option Binary64.t) -> Binary64.t;
  cast_text : string -> Series -> string
}.

(** ** Expressions

    The fragment of the expression language that [process_csv] builds:
    a column reference, its strict cast to [Float64], one of the five
    aggregations, and a name for the result. *)

Inductive DataType : Type :=
| Float64.

Inductive Column : Type :=
| col (name : string).

Inductive Casted : Type :=
| cast (c : Column) (dtype : DataType).

Inductive Agg : Type :=
| count (c : Column)
| min (e : Casted)
| max (e : Casted)
| sum (e : Casted)
| mean (e : Casted).

Inductive Expr : Type :=
| alias (a : Agg) (name : string).

(** A lazy frame: the file it scans and the expressions selected, if any. *)
Record LazyFrame : Type := {
  lf_path : Path;
  lf_select : option (list Expr)
}.

Definition not_found_message (path : Path) : string :=
  "No such file or directory (os error 2): " ++ path.

(** [pl.scan_csv(path)]. *)
Definition scan_csv (eng : Engine) (fs : FileSystem) (path : Path)
  : result LazyFrame :=
  let lf := {| lf_path := path; lf_select := None |} in
  if opens_at_scan eng then
    match fs path with
    | Missing => Raise (missing_error eng path)
    | Malformed e => Raise (csv_exception e)
    | Table _ => Ok lf
    end
  else Ok lf.

(** [lf.select(exprs)]. *)
Definition select (lf : LazyFrame) (exprs : list Expr) : LazyFrame :=
  {| lf_path := lf_path lf; lf_select := Some exprs |}.

(** ** Resolving column references

    [pl.col(name)] stands for every column when [name] is ["*"], for the
    columns whose names match when [name] starts with [^] and ends with
    [$], and for the one column called [name] otherwise. *)

Fixpoint last_char (s : string) : option ascii :=
  match s with
  | EmptyString => None
  | String c EmptyString => Some c
  | String _ r => last_char r
  end.

Definition is_regex (name : string) : bool :=
  match name with
  | String "^" _ =>
      match last_char name with
      | Some "$"%char => true
      | _ => false
      end
  | _ => false
  end.

Definition is_wildcard (name : string) : bool := String.eqb name "*".

(** A name that refers to one column by exact match. *)
Definition is_plain (name : string) : bool :=
  negb (is_wildcard name) && negb (is_regex name).

Definition mem (name : string) (names : list string) : bool :=
  existsb (String.eqb name) names.

Definition selected (eng : Engine) (names : list string) (name : string)
  : result (list string) :=
  if is_wildcard name then Ok names
  else if is_regex name then Ok (filter (is_match eng name) names)
  else if mem name names then Ok [name]
  else Raise (ColumnNotFoundError name).

Definition root (a : Agg) : string :=
  match a with
  | count (col n) => n
  | min (cast (col n) _) | max (cast (col n) _)
  | sum (cast (col n) _) | mean (cast (col n) _) => n
  end.

Definition with_root (a : Agg) (n : string) : Agg :=
  match a with
  | count _ => count (col n)
  | min (cast _ d) => min (cast (col n) d)
  | max (cast _ d) => max (cast (col n) d)
  | sum (cast _ d) => sum (cast (col n) d)
  | mean (cast _ d) => mean (cast (col n) d)
  end.

(** One expression becomes one expression per column it refers to. *)
Definition expand (eng : Engine) (names : list string) (e : Expr)
  : result (list Expr) :=
  match e with
  | alias a out =>
      ns <- selected eng names (root a) ;;
      Ok (map (fun n => alias (with_root a n) out) ns)
  end.

Fixpoint expand_all (eng : Engine) (names : list string) (es : list Expr)
  : result (list Expr) :=
  match es with
  | [] => Ok []
  | e :: es' =>
      xs <- expand eng names e ;;
      ys <- expand_all eng names es' ;;
      Ok (xs ++ ys)%list
  end.

Definition output_name (e : Expr) : string :=
  match e with alias _ out => out end.

Fixpoint first_duplicate (names : list string) : option string :=
  match names with
  | [] => None
  | n :: names' => if mem n names' then Some n else first_duplicate names'
  end.

(** The plan is resolved against the header before any data is touched:
    references are expanded, and two results may not share a name. *)
Definition resolve (eng : Engine) (names : list string) (es : list Expr)
  : result (list Expr) :=
  xs <- expand_all eng names es ;;
  match first_duplicate (map output_name xs) with
  | Some n => Raise (DuplicateError n)
  | None => Ok xs
  end.

(** ** Strict cast to [Float64]

    [expr.cast(pl.Float64)] with the default [strict=True]: a null cell
    stays null, a number is converted, and a text cell is read as a
    decimal literal.  One text cell that is not a literal makes the whole
    cast raise. *)

Definition one : Binary64.t := Binary64.of_Z 1.

Definition str_to_f64 (c : option string) : option Binary64.t :=
  match c with
  | None => None
  | Some s => Binary64.of_string s
  end.

Definition castable (c : option string) : bool :=
  match c with
  | None => true
  | Some s =>
      match Binary64.of_string s with
      | Some _ => true
      | None => false
      end
  end.

Definition cast_failure (eng : Engine) (name : string) (s : Series)
  : Exception :=
  InvalidOperationError (cast_text eng name s).

Definition cast_Float64 (eng : Engine) (name : string) (s : Series)
  : result (list (option Binary64.t)) :=
  match s with
  | Float64Series v => Ok v
  | Int64Series v | UInt32Series v => Ok (map (option_map Binary64.of_Z) v)
  | BooleanSeries v =>
      Ok (map (option_map (fun b : bool => if b then one else Binary64.zero)) v)
  | StringSeries v =>
      if forallb castable v then Ok (map str_to_f64 v)
      else Raise (cast_failure eng name s)
  end.

(** ** Aggregations

    All five skip null cells.  [min], [max] and [mean] of no value are
    null; [sum] of no value is [0.0].  [min] and [max] skip NaN unless
    every value is NaN; of two values that compare equal they keep the
    one the engine chooses.  [mean] is the engine's sum divided by the
    number of values. *)

Fixpoint non_null {A : Type} (v : list (option A)) : list A :=
  match v with
  | [] => []
  | Some a :: v' => a :: non_null v'
  | None :: v' => non_null v'
  end.

Definition count_non_null (s : Series) : Z :=
  match s with
  | Int64Series v | UInt32Series v => Z.of_nat (List.length (non_null v))
  | Float64Series v => Z.of_nat (List.length (non_null v))
  | BooleanSeries v => Z.of_nat (List.length (non_null v))
  | StringSeries v => Z.of_nat (List.length (non_null v))
  end.

Definition fmin (eng : Engine) (a b : Binary64.t) : Binary64.t :=
  if Binary64.is_nan a then b
  else if Binary64.is_nan b then a
  else if Binary64.ltb b a then b
  else if Binary64.ltb a b then a
  else if tie_min eng a b then a else b.

Definition fmax (eng : Engine) (a b : Binary64.t) : Binary64.t :=
  if Binary64.is_nan a then b
  else if Binary64.is_nan b then a
  else if Binary64.ltb a b then b
  else if Binary64.ltb b a then a
  else if tie_max eng a b then a else b.

Definition reduce (f : Binary64.t -> Binary64.t -> Binary64.t)
  (xs : list Binary64.t) : option Binary64.t :=
  match xs with
  | [] => None
  | x :: xs' => Some (fold_left f xs' x)
  end.

Definition agg_min (eng : Engine) (v : list (option Binary64.t))
  : option Binary64.t :=
  reduce (fmin eng) (non_null v).

Definition agg_max (eng : Engine) (v : list (option Binary64.t))
  : option Binary64.t :=
  reduce (fmax eng) (non_null v).

Definition agg_sum (eng : Engine) (v : list (option Binary64.t))
  : option Binary64.t :=
  match non_null v with
  | [] => Some Binary64.zero
  | _ => Some (total eng v)
  end.

Definition agg_mean (eng : Engine) (v : list (option Binary64.t))
  : option Binary64.t :=
  match non_null v with
  | [] => None
  | xs =>
      Some (Binary64.div (total eng v)
              (Binary64.of_Z (Z.of_nat (List.length xs))))
  end.

(** The cells of a selected column: read now, so an unreadable column
    raises here. *)
Definition column (cols : list (string * Cells)) (name : string)
  : result Series :=
  match lookup cols name with
  | Some (Read s) => Ok s
  | Some (Unreadable e) => Raise (csv_exception e)
  | None => Raise (ColumnNotFoundError name)
  end.

Definition casted (eng : Engine) (cols : list (string * Cells)) (e : Casted)
  : result (list (option Binary64.t)) :=
  match e with
  | cast (col n) Float64 => s <- column cols n ;; cast_Float64 eng n s
  end.

(** The one-cell column an aggregation produces. *)
Definition eval (eng : Engine) (cols : list (string * Cells)) (a : Agg)
  : result Series :=
  match a with
  | count (col n) =>
      s <- column cols n ;; Ok (UInt32Series [Some (count_non_null s)])
  | min e => v <- casted eng cols e ;; Ok (Float64Series [agg_min eng v])
  | max e => v <- casted eng cols e ;; Ok (Float64Series [agg_max eng v])
  | sum e => v <- casted eng cols e ;; Ok (Float64Series [agg_sum eng v])
  | mean e => v <- casted eng cols e ;; Ok (Float64Series [agg_mean eng v])
  end.

Fixpoint execute (eng : Engine) (cols : list (string * Cells))
  (es : list Expr) : result DataFrame :=
  match es with
  | [] => Ok []
  | alias a out :: es' =>
      s <- eval eng cols a ;;
      rest <- execute eng cols es' ;;
      Ok ((out, s) :: rest)
  end.

(** Every column of the file, for a plan that selects nothing. *)
Fixpoint read_all (cols : list (string * Cells)) : result DataFrame :=
  match cols with
  | [] => Ok []
  | (n, Read s) :: cols' => rest <- read_all cols' ;; Ok ((n, s) :: rest)
  | (_, Unreadable e) :: _ => Raise (csv_exception e)
  end.

(** [lf.collect()]: open the file, resolve the plan against the header,
    run it. *)
Definition collect (eng : Engine) (fs : FileSystem) (lf : LazyFrame)
  : result DataFrame :=
  match fs (lf_path lf) with
  | Missing => Raise (FileNotFoundError (not_found_message (lf_path lf)))
  | Malformed e => Raise (csv_exception e)
  | Table cols =>
      match lf_select lf with
      | None => read_all cols
      | Some es => xs <- resolve eng (header cols) es ;; execute eng cols xs
      end
  end.

(** ** Reading a row *)

Definition cell (s : Series) (i : nat) : PyVal :=
  match s with
  | Int64Series v | UInt32Series v =>
      match nth_error v i with Some (Some n) => PyInt n | _ => PyNone end
  | Float64Series v =>
      match nth_error v i with Some (Some x) => PyFloat x | _ => PyNone end
  | BooleanSeries v =>
      match nth_error v i with Some (Some b) => PyBool b | _ => PyNone end
  | StringSeries v =>
      match nth_error v i with Some (Some t) => PyStr t | _ => PyNone end
  end.

Definition out_of_bounds (index height : nat) : Exception :=
  OutOfBoundsError
    ("index " ++ Binary64.decimal_of_Z (Z.of_nat index)
     ++ " is out of bounds for sequence of length "
     ++ Binary64.decimal_of_Z (Z.of_nat height)).

(** [df.row(index, named=True)] for an index that is not negative. *)
Definition row (df : DataFrame) (index : nat) : result dict :=
  if Nat.ltb index (height df)
  then Ok (map (fun '(n, s) => (n, cell s index)) df)
  else Raise (out_of_bounds index (height df)).

End pl.

(* ================================================================== *)
(** * [main.py] *)
(* ================================================================== *)

(** The dataclass [SelectedStats].  An [Optional[float]] field is [None]
    when the statistic is absent. *)
Module SelectedStats.
Record t : Type := {
  count : Z;
  min : option Binary64.t;
  max : option Binary64.t;
  sum : option Binary64.t;
  mean : option Binary64.t
}.
End SelectedStats.

(** The dataclass stores what it is given.  The record above has the
    types of the annotations, so the model reads each value of the row at
    its annotated type; [process_csv_typed] shows these reads never fail
    on a row that the five aggregations produced. *)
Definition as_int (v : PyVal) : result Z :=
  match v with
  | PyInt n => Ok n
  | _ => Raise (TypeError "int")
  end.

Definition as_optional_float (v : PyVal) : result (option Binary64.t) :=
  match v with
  | PyNone => Ok None
  | PyFloat x => Ok (Some x)
  | _ => Raise (TypeError "Optional[float]")
  end.

Section Run.

(** The engine in use and the files on disk during the call. *)
Variable eng : pl.Engine.
Variable fs : pl.FileSystem.

(** The list built at [main.py:39-45]. *)
Definition aggregations (column_name : string) : list pl.Expr :=
  [ pl.alias (pl.count (pl.col column_name)) "count";
    pl.alias (pl.min (pl.cast (pl.col column_name) pl.Float64)) "min";
    pl.alias (pl.max (pl.cast (pl.col column_name) pl.Float64)) "max";
    pl.alias (pl.sum (pl.cast (pl.col column_name) pl.Float64)) "sum";
    pl.alias (pl.mean (pl.cast (pl.col column_name) pl.Float64)) "mean" ].

(** [main.py:56-67]: the single row of the result, as a record. *)
Definition extract (stats_df : pl.DataFrame) : result SelectedStats.t :=
  stats_dict <- pl.row stats_df 0 ;;
  c <- bind (getitem stats_dict "count") as_int ;;
  mn <- bind (getitem stats_dict "min") as_optional_float ;;
  mx <- bind (getitem stats_dict "max") as_optional_float ;;
  sm <- bind (getitem stats_dict "sum") as_optional_float ;;
  me <- bind (getitem stats_dict "mean") as_optional_float ;;
  Ok {| SelectedStats.count := c;
        SelectedStats.min := mn;
        SelectedStats.max := mx;
        SelectedStats.sum := sm;
        SelectedStats.mean := me |}.

(** [process_csv], [main.py:21-67].  The two [match]es are the two
    [try] blocks with their [except] clauses in order. *)
Definition process_csv (file_path : pl.Path) (column_name : string)
  : result SelectedStats.t :=
  match pl.scan_csv eng fs file_path with
  | Raise (FileNotFoundError _) =>
      Raise (FileNotFoundError
               ("Error: The file '" ++ file_path ++ "' was not found."))
  | Raise e => Raise (RuntimeError ("Error reading CSV file: " ++ str e))
  | Ok lf =>
      match pl.collect eng fs (pl.select lf (aggregations column_name)) with
      | Raise (ColumnNotFoundError _) =>
          Raise (ValueError
                   ("Error: Column '" ++ column_name ++ "' not found in the file."))
      | Raise e =>
          Raise (RuntimeError ("Error processing data with Polars: " ++ str e))
      | Ok stats_df => extract stats_df
      end
  end.

(** [format_opt], [main.py:97-98]. *)
Definition format_opt (val : option Binary64.t) : string :=
  match val with
  | Some x => Binary64.format_4f x
  | None => "N/A"
  end.

(** The parsed command line. *)
Record Namespace : Type := {
  file_path : pl.Path;
  column_name : string
}.

(** What a run leaves behind: the text on the two streams, the exception
    that nothing caught (the interpreter reports it with a traceback on
    standard error), and the exit status. *)
Record Outcome : Type := {
  stdout : string;
  stderr : string;
  uncaught : option Exception;
  exit_status : Z
}.

(** [print(s)] appends [s] and a line break. *)
Definition print (s : string) (stream : string) : string :=
  stream ++ s ++ String "010" "".

(** The seven [print] calls of [main.py:101-107]. *)
Definition report (column_name : string) (stats : SelectedStats.t) : string :=
  print ("Mean:  " ++ format_opt (SelectedStats.mean stats))
    (print ("Sum:   " ++ format_opt (SelectedStats.sum stats))
       (print ("Max:   " ++ format_opt (SelectedStats.max stats))
          (print ("Min:   " ++ format_opt (SelectedStats.min stats))
             (print ("Count: " ++ Binary64.decimal_of_Z (SelectedStats.count stats))
                (print ("--- Statistics for '" ++ column_name ++ "' ---")
                   (print "Output for python-polars" "")))))).

(** The classes named at [main.py:109]. *)
Definition caught (e : Exception) : bool :=
  match e with
  | FileNotFoundError _ | ValueError _ | RuntimeError _ => true
  | _ => false
  end.

(** [main], [main.py:92-111], once [parser.parse_args()] has returned
    [args]. *)
Definition main (args : Namespace) : Outcome :=
  match process_csv (file_path args) (column_name args) with
  | Ok stats =>
      {| stdout := report (column_name args) stats;
         stderr := "";
         uncaught := None;
         exit_status := 0 |}
  | Raise e =>
      if caught e then
        {| stdout := ""; stderr := print (str e) "";
           uncaught := None; exit_status := 1 |}
      else
        {| stdout := ""; stderr := "";
           uncaught := Some e; exit_status := 1 |}
  end.

End Run.

(* ================================================================== *)
(** * The result of [process_csv], column by column *)
(* ================================================================== *)

(** The statistics of a column [s] whose cast to [Float64] is [v]. *)
Definition stats_of (eng : pl.Engine) (s : pl.Series)
  (v : list (option Binary64.t)) : SelectedStats.t :=
  {| SelectedStats.count := pl.count_non_null s;
     SelectedStats.min := pl.agg_min eng v;
     SelectedStats.max := pl.agg_max eng v;
     SelectedStats.sum := pl.agg_sum eng v;
     SelectedStats.mean := pl.agg_mean eng v |}.

(** The one-row frame that the five aggregations produce. *)
Definition stats_frame (eng : pl.Engine) (s : pl.Series)
  (v : list (option Binary64.t)) : pl.DataFrame :=
  [ ("count", pl.UInt32Series [Some (pl.count_non_null s)]);
    ("min", pl.Float64Series [pl.agg_min eng v]);
    ("max", pl.Float64Series [pl.agg_max eng v]);
    ("sum", pl.Float64Series [pl.agg_sum eng v]);
    ("mean", pl.Float64Series [pl.agg_mean eng v]) ].

(** The error raised at [main.py:54]. *)
Definition processing_error (e : Exception) : Exception :=
  RuntimeError ("Error processing data with Polars: " ++ str e).

(** The error raised at [main.py:52]. *)
Definition column_not_found (column_name : string) : Exception :=
  ValueError ("Error: Column '" ++ column_name ++ "' not found in the file.").

(** What the first [try] block, [main.py:30-35], raises when [scan_csv]
    raises [e]. *)
Definition scan_failure (file_path : pl.Path) (e : Exception) : Exception :=
  match e with
  | FileNotFoundError _ =>
      FileNotFoundError ("Error: The file '" ++ file_path ++ "' was not found.")
  | _ => RuntimeError ("Error reading CSV file: " ++ str e)
  end.

(** No column is selected: the file has a header and the reference
    stands for none of its columns. *)
Definition selects_nothing (eng : pl.Engine) (fs : pl.FileSystem)
  (path : pl.Path) (name : string) : bool :=
  match fs path with
  | pl.Table cols =>
      match pl.selected eng (pl.header cols) name with
      | Ok [] => true
      | _ => false
      end
  | _ => false
  end.

(* ================================================================== *)
(** * The column as the specification sees it *)
(* ================================================================== *)

(** The specification's NumericView of a column: every cell is the
    number it coerces to, and a cell that does not coerce is null.  The
    definition follows the specification's words; [cast_Float64_view]
    compares it with the cast the program performs. *)
Definition numeric_view (s : pl.Series) : list (option Binary64.t) :=
  match s with
  | pl.Float64Series v => v
  | pl.Int64Series v | pl.UInt32Series v => map (option_map Binary64.of_Z) v
  | pl.BooleanSeries v =>
      map (option_map (fun b : bool => if b then pl.one else Binary64.zero)) v
  | pl.StringSeries v => map pl.str_to_f64 v
  end.

(** Every non-null cell coerces. *)
Definition all_coerce (s : pl.Series) : bool :=
  match s with
  | pl.StringSeries v => forallb pl.castable v
  | _ => true
  end.

(** The StatsResult the specification describes for a column: the count
    of its non-null cells and the engine's aggregates of its NumericView. *)
Definition expected_stats (eng : pl.Engine) (s : pl.Series)
  : SelectedStats.t :=
  stats_of eng s (numeric_view s).

Definition is_some {A : Type} (o : option A) : bool :=
  match o with Some _ => true | None => false end.

(** Every cell holds a number: none is null, none is a truth value, and
    every text cell is a decimal literal. *)
Definition all_numbers (s : pl.Series) : bool :=
  match s with
  | pl.Int64Series v | pl.UInt32Series v => forallb is_some v
  | pl.Float64Series v => forallb is_some v
  | pl.BooleanSeries v => false
  | pl.StringSeries v => forallb (fun c => is_some (pl.str_to_f64 c)) v
  end.

(** The values a column contributes: its non-null cells, coerced. *)
Definition values_of (s : pl.Series) : list Binary64.t :=
  pl.non_null (numeric_view s).

Definition no_nan (values : list Binary64.t) : bool :=
  forallb (fun x => negb (Binary64.is_nan x)) values.

(** The reader finds a header in the file. *)
Definition has_header (f : pl.File) : bool :=
  match f with
  | pl.Table _ => true
  | _ => false
  end.

(* ================================================================== *)
(** * Streams and rendered text *)
(* ================================================================== *)

Definition newline : string := String "010" "".

(** The number of line breaks in a text. *)
Fixpoint line_breaks (s : string) : nat :=
  match s with
  | EmptyString => 0
  | String c r => ((if Ascii.eqb c "010" then 1 else 0) + line_breaks r)%nat
  end.

Definition is_digit (c : ascii) : bool :=
  let n := nat_of_ascii c in (Nat.leb 48 n && Nat.leb n 57)%bool.

Fixpoint all_digits (s : string) : bool :=
  match s with
  | EmptyString => true
  | String c r => is_digit c && all_digits r
  end.

Fixpoint no_point (s : string) : bool :=
  match s with
  | EmptyString => true
  | String c r => negb (Ascii.eqb c ".") && no_point r
  end.

(** The text before and after the first decimal point. *)
Fixpoint split_point (s : string) : option (string * string) :=
  match s with
  | EmptyString => None
  | String c r =>
      if Ascii.eqb c "." then Some (EmptyString, r)
      else match split_point r with
           | Some (a, d) => Some (String c a, d)
           | None => None
           end
  end.

(** There is a decimal point, and what follows it is four digits. *)
Definition four_decimals (s : string) : bool :=
  match split_point s with
  | Some (_, d) => Nat.eqb (String.length d) 4 && all_digits d
  | None => false
  end.

(** Digits and nothing else. *)
Definition plain_integer (s : string) : bool :=
  negb (String.eqb s "") && all_digits s.

(** How a floating-point field may appear. *)
Definition rendered (val : option Binary64.t) (s : string) : Prop :=
  match val with
  | None => s = "N/A"
  | Some x =>
      if Binary64.is_finite x then four_decimals s = true
      else s = "inf" \/ s = "-inf" \/ s = "nan"
  end.

(** The seven lines of a report whose fields are already rendered. *)
Definition layout (column_name count min max sum mean : string) : string :=
  "Output for python-polars" ++ newline
  ++ "--- Statistics for '" ++ column_name ++ "' ---" ++ newline
  ++ "Count: " ++ count ++ newline
  ++ "Min:   " ++ min ++ newline
  ++ "Max:   " ++ max ++ newline
  ++ "Sum:   " ++ sum ++ newline
  ++ "Mean:  " ++ mean ++ newline.

(** The text begins with a minus sign. *)
Definition starts_with_minus (s : string) : bool :=
  match s with
  | String c _ => Ascii.eqb c "-"
  | EmptyString => false
  end.

Definition sign_bit (x : Binary64.t) : bool :=
  match x with
  | S754_zero s | S754_infinity s | S754_finite s _ _ => s
  | S754_nan => false
  end.

(** A finite value [m * 2^e] is a whole number. *)
Definition is_whole (m : positive) (e : Z) : bool :=
  (0 <=? e) || (Zpos m mod 2 ^ (- e) =? 0).

Definition whole_value (m : positive) (e : Z) : Z :=
  if 0 <=? e then Zpos m * 2 ^ e else Zpos m / 2 ^ (- e).

(* ================================================================== *)
(** * An engine for the examples *)
(* ================================================================== *)

(** A matcher that knows the patterns without metacharacters: [^text$]
    matches the name [text] and no other.  Every regular-expression
    engine agrees with it on such patterns. *)
Definition literal_match (pattern name : string) : bool :=
  String.eqb pattern ("^" ++ name ++ "$").

(** Of two values that compare equal, keep the second. *)
Definition keep_second (a b : Binary64.t) : bool := false.

(** The sum of a column held in one chunk, as Polars takes it.  A null
    cell counts as [0.0].  The cells in front that do not fill a block of
    128 are added from left to right.  A block is added in 16 lanes,
    which are then folded onto each other in halves; blocks are paired
    recursively. *)
Definition or_zero (c : option Binary64.t) : Binary64.t :=
  match c with
  | Some x => x
  | None => Binary64.zero
  end.

Fixpoint add_lanes (acc xs : list Binary64.t) : list Binary64.t :=
  match acc, xs with
  | a :: acc', x :: xs' => Binary64.add a x :: add_lanes acc' xs'
  | _, _ => acc
  end.

Fixpoint stripes (fuel : nat) (acc xs : list Binary64.t)
  : list Binary64.t :=
  match fuel with
  | O => acc
  | S fuel' =>
      match xs with
      | [] => acc
      | _ => stripes fuel' (add_lanes acc (firstn 16 xs)) (skipn 16 xs)
      end
  end.

Definition fold_half (v : list Binary64.t) : list Binary64.t :=
  let h := Nat.div (List.length v) 2 in
  add_lanes (firstn h v) (skipn h v).

Definition horizontal_sum (v : list Binary64.t) : Binary64.t :=
  match fold_half (fold_half v) with
  | [a; b; c; d] => Binary64.add (Binary64.add a c) (Binary64.add b d)
  | _ => Binary64.zero
  end.

Definition block_sum (xs : list Binary64.t) : Binary64.t :=
  horizontal_sum (stripes 8 (repeat Binary64.zero 16) xs).

Fixpoint pairwise_sum (fuel : nat) (xs : list Binary64.t) : Binary64.t :=
  match fuel with
  | O => Binary64.zero
  | S fuel' =>
      let blocks := Nat.div (List.length xs) 128 in
      if Nat.leb blocks 1 then block_sum xs
      else
        let left := (Nat.div blocks 2 * 128)%nat in
        Binary64.add (pairwise_sum fuel' (firstn left xs))
          (pairwise_sum fuel' (skipn left xs))
  end.

Definition sum_in_blocks (cells : list (option Binary64.t)) : Binary64.t :=
  let xs := map or_zero cells in
  let remainder := Nat.modulo (List.length xs) 128 in
  let main := skipn remainder xs in
  let main_sum :=
    match main with
    | [] => Binary64.zero
    | _ => pairwise_sum (List.length main) main
    end in
  Binary64.add main_sum
    (fold_left Binary64.add (firstn remainder xs) Binary64.zero).

(** The beginning of the engine's message for a failed cast. *)
Definition cast_message (name : string) (s : pl.Series) : string :=
  "conversion from `str` to `f64` failed in column '" ++ name ++ "'".

(** Polars as it is: the file is opened by [collect]. *)
Definition polars : pl.Engine :=
  {| pl.opens_at_scan := false;
     pl.missing_error := fun path => FileNotFoundError (pl.not_found_message path);
     pl.is_match := literal_match;
     pl.tie_min := keep_second;
     pl.tie_max := keep_second;
     pl.total := sum_in_blocks;
     pl.cast_text := cast_message |}.

(** An engine that opens the file in [scan_csv] and reports a missing
    file as [FileNotFoundError], as [main.py:32] expects. *)
Definition polars_eager : pl.Engine :=
  {| pl.opens_at_scan := true;
     pl.missing_error := fun path => FileNotFoundError (pl.not_found_message path);
     pl.is_match := literal_match;
     pl.tie_min := keep_second;
     pl.tie_max := keep_second;
     pl.total := sum_in_blocks;
     pl.cast_text := cast_message |}.

(** An engine that opens the file in [scan_csv] and reports a missing
    file as a plain [OSError]. *)
Definition polars_os_error : pl.Engine :=
  {| pl.opens_at_scan := true;
     pl.missing_error := fun path => OSError (pl.not_found_message path);
     pl.is_match := literal_match;
     pl.tie_min := keep_second;
     pl.tie_max := keep_second;
     pl.total := sum_in_blocks;
     pl.cast_text := cast_message |}.

(** An engine that adds from left to right and keeps the first of two
    equal values: another order a run may take. *)
Definition left_to_right (cells : list (option Binary64.t)) : Binary64.t :=
  fold_left Binary64.add (pl.non_null cells) Binary64.zero.

Definition keep_first (a b : Binary64.t) : bool := true.

Definition sequential : pl.Engine :=
  {| pl.opens_at_scan := false;
     pl.missing_error := fun path => FileNotFoundError (pl.not_found_message path);
     pl.is_match := literal_match;
     pl.tie_min := keep_first;
     pl.tie_max := keep_first;
     pl.total := left_to_right;
     pl.cast_text := cast_message |}.

(* ================================================================== *)
(** * Files for the examples *)
(* ================================================================== *)

(** [amount\n10\n20\n30\n] *)
Definition numbers_csv : pl.DataFrame :=
  [("amount", pl.Int64Series [Some 10; Some 20; Some 30])].

(** [amount\n10\nabc\n30\n]: a column with a cell that is not a number is
    read as text. *)
Definition mixed_column : pl.Series :=
  pl.StringSeries [Some "10"; Some "abc"; Some "30"].

Definition mixed_csv : pl.DataFrame := [("amount", mixed_column)].

(** [id,amount\n1,\n2,\n]: every cell of [amount] is blank. *)
Definition blank_column : pl.Series := pl.StringSeries [None; None].

Definition blank_csv : pl.DataFrame :=
  [("id", pl.Int64Series [Some 1; Some 2]); ("amount", blank_column)].

(** [amount\n1e308\n1e308\n] *)
Definition huge_csv : pl.DataFrame :=
  [("amount",
    pl.Float64Series [Binary64.of_string "1e308"; Binary64.of_string "1e308"])].

(** [amount\nNaN\n] *)
Definition nan_csv : pl.DataFrame :=
  [("amount", pl.Float64Series [Some S754_nan])].

(** A file with the header [a,b] in which the reader, past the rows it
    infers the dtypes from, meets a cell of [b] that is not a number:
    [a] can be read, [b] cannot. *)
Definition late_csv : list (string * pl.Cells) :=
  [("a", pl.Read (pl.Int64Series [Some 1; Some 2; Some 3]));
   ("b", pl.Unreadable (pl.ParseFailure "could not parse `x` as dtype `i64`"))].

Definition disk : pl.FileSystem :=
  fun path =>
    if String.eqb path "numbers.csv" then pl.Csv numbers_csv
    else if String.eqb path "mixed.csv" then pl.Csv mixed_csv
    else if String.eqb path "blank.csv" then pl.Csv blank_csv
    else if String.eqb path "huge.csv" then pl.Csv huge_csv
    else if String.eqb path "nan.csv" then pl.Csv nan_csv
    else if String.eqb path "empty.csv" then pl.Malformed pl.EmptyFile
    else if String.eqb path "late.csv" then pl.Table late_csv
    else pl.Missing.

(** The float of an integer, to write expected values. *)
Definition f64 (z : Z) : Binary64.t := Binary64.of_Z z.

(** A column name with a line break in it. *)
Definition two_lines : string := "a" ++ newline ++ "b".

(** [id,amount\n1,10.0\n2,\n3,20.0\n4,30.0\n]: the values of
    [numbers_csv] as floats, with a blank cell among them. *)
Definition gaps_column : pl.Series :=
  pl.Float64Series [Some (f64 10); None; Some (f64 20); Some (f64 30)].

Definition gaps_csv : pl.DataFrame :=
  [("id", pl.Int64Series [Some 1; Some 2; Some 3; Some 4]);
   ("amount", gaps_column)].

Definition gaps_disk : pl.FileSystem :=
  fun path => if String.eqb path "gaps.csv" then pl.Csv gaps_csv else pl.Missing.


(* ================================================================== *)
(** * Facts about the engine *)
(* ================================================================== *)

Lemma get_column_mem (df : pl.DataFrame) (n : string) (s : pl.Series) :
  pl.get_column df n = Some s -> pl.mem n (pl.columns df) = true.
Proof.
  induction df as [|[k c] df IH]; simpl; [discriminate|].
  rewrite (String.eqb_sym n k).
  destruct (String.eqb k n); simpl; auto.
Qed.

Lemma mem_get_column (df : pl.DataFrame) (n : string) :
  pl.mem n (pl.columns df) = true -> exists s, pl.get_column df n = Some s.
Proof.
  induction df as [|[k c] df IH]; simpl; [discriminate|].
  rewrite (String.eqb_sym n k).
  destruct (String.eqb k n); simpl; eauto.
Qed.

Lemma mem_lookup (cols : list (string * pl.Cells)) (n : string) :
  pl.mem n (pl.header cols) = true -> exists c, pl.lookup cols n = Some c.
Proof.
  induction cols as [|[k c] cols IH]; simpl; [discriminate|].
  rewrite (String.eqb_sym n k).
  destruct (String.eqb k n); simpl; eauto.
Qed.

(** A file that reads as a frame has the columns of the frame, all of
    them readable. *)
Lemma header_csv (df : pl.DataFrame) :
  pl.header (map (fun c => (fst c, pl.Read (snd c))) df) = pl.columns df.
Proof.
  unfold pl.header, pl.columns. rewrite map_map. reflexivity.
Qed.

Lemma lookup_csv (df : pl.DataFrame) (n : string) :
  pl.lookup (map (fun c => (fst c, pl.Read (snd c))) df) n
  = option_map pl.Read (pl.get_column df n).
Proof.
  induction df as [|[k c] df IH]; simpl; [reflexivity|].
  destruct (String.eqb k n); [reflexivity | exact IH].
Qed.

Lemma mem_In (n : string) (names : list string) :
  pl.mem n names = true <-> In n names.
Proof.
  unfold pl.mem. rewrite existsb_exists. split.
  - intros [x [Hin Heq]]. apply String.eqb_eq in Heq. now subst.
  - intros Hin. exists n. split; [assumption | apply String.eqb_refl].
Qed.

(** Whatever a reference selects is a column of the header. *)
Lemma selected_mem (eng : pl.Engine) (names ns : list string) (name n : string) :
  pl.selected eng names name = Ok ns -> In n ns -> pl.mem n names = true.
Proof.
  unfold pl.selected.
  destruct (pl.is_wildcard name).
  - intros [= <-] Hin. now apply mem_In.
  - destruct (pl.is_regex name).
    + intros [= <-] Hin. apply filter_In in Hin. now apply mem_In.
    + destruct (pl.mem name names) eqn:Hm; [|discriminate].
      intros [= <-] [<-|[]]. exact Hm.
Qed.

(** A reference never fails unless it is a plain name the header lacks. *)
Lemma selected_raise (eng : pl.Engine) (names : list string) (name : string)
  (e : Exception) :
  pl.selected eng names name = Raise e ->
  pl.is_plain name = true /\ pl.mem name names = false
  /\ e = ColumnNotFoundError name.
Proof.
  unfold pl.selected, pl.is_plain.
  destruct (pl.is_wildcard name); [discriminate|].
  destruct (pl.is_regex name); [discriminate|].
  destruct (pl.mem name names); [discriminate|].
  intros [= <-]. auto.
Qed.

Lemma selected_plain (eng : pl.Engine) (names : list string) (name : string) :
  pl.is_plain name = true ->
  pl.selected eng names name =
    if pl.mem name names then Ok [name] else Raise (ColumnNotFoundError name).
Proof.
  unfold pl.selected, pl.is_plain.
  destruct (pl.is_wildcard name); [discriminate|].
  destruct (pl.is_regex name); [discriminate|]. reflexivity.
Qed.

(** The strict cast keeps every non-null cell: it converts it or raises. *)
Lemma cast_Float64_count (eng : pl.Engine) (name : string) (s : pl.Series)
  (v : list (option Binary64.t)) :
  pl.cast_Float64 eng name s = Ok v ->
  Z.of_nat (List.length (pl.non_null v)) = pl.count_non_null s.
Proof.
  destruct s as [l|l|l|l|l]; simpl.
  - intros [= <-]. f_equal.
    induction l as [|[x|] l IH]; simpl; congruence.
  - intros [= <-]. reflexivity.
  - intros [= <-]. f_equal.
    induction l as [|[x|] l IH]; simpl; congruence.
  - destruct (forallb pl.castable l) eqn:Hall; [|discriminate].
    intros [= <-]. f_equal.
    induction l as [|[x|] l IH]; simpl in *.
    + reflexivity.
    + apply andb_prop in Hall as [Hx Hl].
      destruct (Binary64.of_string x); [|discriminate].
      simpl. f_equal. auto.
    + auto.
  - intros [= <-]. f_equal.
    induction l as [|[x|] l IH]; simpl; congruence.
Qed.

Lemma cast_Float64_raise (eng : pl.Engine) (name : string) (s : pl.Series)
  (e : Exception) :
  pl.cast_Float64 eng name s = Raise e ->
  e = pl.cast_failure eng name s
  /\ exists raw, s = pl.StringSeries raw /\ forallb pl.castable raw = false.
Proof.
  destruct s as [l|l|l|l|l]; simpl; try discriminate.
  destruct (forallb pl.castable l) eqn:Hall; [discriminate|].
  intros [= <-]. split; [reflexivity | eauto].
Qed.

(* ================================================================== *)
(** * What [process_csv] computes *)
(* ================================================================== *)

(** The reads of [extract] succeed on the frame of the aggregations. *)
Lemma process_csv_typed (eng : pl.Engine) (s : pl.Series)
  (v : list (option Binary64.t)) :
  extract (stats_frame eng s v) = Ok (stats_of eng s v).
Proof.
  unfold extract, stats_frame, stats_of, pl.agg_sum, pl.agg_mean. simpl.
  destruct (pl.agg_min eng v), (pl.agg_max eng v), (pl.non_null v);
    reflexivity.
Qed.

Lemma extract_empty : extract [] = Raise (pl.out_of_bounds 0 0).
Proof. reflexivity. Qed.

Lemma execute_aggregations (eng : pl.Engine) (cols : list (string * pl.Cells))
  (n : string) :
  pl.execute eng cols (aggregations n) =
    match pl.column cols n with
    | Ok s =>
        match pl.cast_Float64 eng n s with
        | Ok v => Ok (stats_frame eng s v)
        | Raise e => Raise e
        end
    | Raise e => Raise e
    end.
Proof.
  unfold aggregations, pl.execute, pl.eval, pl.casted.
  destruct (pl.column cols n) as [s|e]; [|reflexivity]. simpl.
  destruct (pl.cast_Float64 eng n s); reflexivity.
Qed.

Section Resolve.

Variable eng : pl.Engine.
Variable names : list string.
Variable name : string.

Lemma resolve_one (n : string) :
  pl.selected eng names name = Ok [n] ->
  pl.resolve eng names (aggregations name) = Ok (aggregations n).
Proof.
  intros Hsel. unfold pl.resolve, aggregations. simpl. rewrite Hsel. reflexivity.
Qed.

Lemma resolve_none :
  pl.selected eng names name = Ok [] ->
  pl.resolve eng names (aggregations name) = Ok [].
Proof.
  intros Hsel. unfold pl.resolve, aggregations. simpl. rewrite Hsel. reflexivity.
Qed.

Lemma resolve_many (n1 n2 : string) (ns : list string) :
  pl.selected eng names name = Ok (n1 :: n2 :: ns) ->
  pl.resolve eng names (aggregations name) = Raise (DuplicateError "count").
Proof.
  intros Hsel. unfold pl.resolve, aggregations. simpl. rewrite Hsel. reflexivity.
Qed.

Lemma resolve_raise (e : Exception) :
  pl.selected eng names name = Raise e ->
  pl.resolve eng names (aggregations name) = Raise e.
Proof.
  intros Hsel. unfold pl.resolve, aggregations. simpl. rewrite Hsel. reflexivity.
Qed.

End Resolve.

Section Cases.

Variable eng : pl.Engine.
Variable fs : pl.FileSystem.
Variable path : pl.Path.
Variable name : string.

(** The call reduces to [collect] whenever the file has a header. *)
Lemma process_csv_collect (cols : list (string * pl.Cells)) :
  fs path = pl.Table cols ->
  process_csv eng fs path name =
    match
      xs <- pl.resolve eng (pl.header cols) (aggregations name) ;;
      pl.execute eng cols xs
    with
    | Raise (ColumnNotFoundError _) => Raise (column_not_found name)
    | Raise e => Raise (processing_error e)
    | Ok stats_df => extract stats_df
    end.
Proof.
  intros Hfs. unfold process_csv, pl.scan_csv, pl.collect, pl.select. simpl.
  rewrite Hfs. destruct (pl.opens_at_scan eng); simpl; rewrite Hfs; reflexivity.
Qed.

Lemma process_csv_missing :
  fs path = pl.Missing ->
  process_csv eng fs path name =
    if pl.opens_at_scan eng
    then Raise (scan_failure path (pl.missing_error eng path))
    else Raise (processing_error (FileNotFoundError (pl.not_found_message path))).
Proof.
  intros Hfs. unfold process_csv, pl.scan_csv, pl.collect, pl.select. simpl.
  rewrite Hfs. destruct (pl.opens_at_scan eng); simpl.
  - destruct (pl.missing_error eng path); reflexivity.
  - rewrite Hfs. reflexivity.
Qed.

Lemma process_csv_malformed (e : pl.CsvError) :
  fs path = pl.Malformed e ->
  process_csv eng fs path name =
    if pl.opens_at_scan eng
    then Raise (RuntimeError ("Error reading CSV file: " ++ str (pl.csv_exception e)))
    else Raise (processing_error (pl.csv_exception e)).
Proof.
  intros Hfs. unfold process_csv, pl.scan_csv, pl.collect, pl.select. simpl.
  rewrite Hfs.
  destruct (pl.opens_at_scan eng), e; simpl; try rewrite Hfs; reflexivity.
Qed.

Variable cols : list (string * pl.Cells).
Hypothesis Hfile : fs path = pl.Table cols.

Lemma process_csv_unknown (e : Exception) :
  pl.selected eng (pl.header cols) name = Raise e ->
  process_csv eng fs path name = Raise (column_not_found name).
Proof.
  intros Hsel. rewrite (process_csv_collect cols Hfile).
  rewrite (resolve_raise _ _ _ _ Hsel).
  apply selected_raise in Hsel as (_ & _ & ->). reflexivity.
Qed.

Lemma process_csv_nothing :
  pl.selected eng (pl.header cols) name = Ok [] ->
  process_csv eng fs path name = Raise (pl.out_of_bounds 0 0).
Proof.
  intros Hsel. rewrite (process_csv_collect cols Hfile).
  rewrite (resolve_none _ _ _ Hsel). reflexivity.
Qed.

Lemma process_csv_several (n1 n2 : string) (ns : list string) :
  pl.selected eng (pl.header cols) name = Ok (n1 :: n2 :: ns) ->
  process_csv eng fs path name =
    Raise (processing_error (DuplicateError "count")).
Proof.
  intros Hsel. rewrite (process_csv_collect cols Hfile).
  rewrite (resolve_many _ _ _ _ _ _ Hsel). reflexivity.
Qed.

Lemma process_csv_one (n : string) (s : pl.Series) :
  pl.selected eng (pl.header cols) name = Ok [n] ->
  pl.lookup cols n = Some (pl.Read s) ->
  process_csv eng fs path name =
    match pl.cast_Float64 eng n s with
    | Ok v => Ok (stats_of eng s v)
    | Raise e => Raise (processing_error e)
    end.
Proof.
  intros Hsel Hcol. rewrite (process_csv_collect cols Hfile).
  rewrite (resolve_one _ _ _ _ Hsel). cbn [bind].
  rewrite execute_aggregations. unfold pl.column. rewrite Hcol.
  destruct (pl.cast_Float64 eng n s) as [v|e] eqn:Hcast.
  - apply process_csv_typed.
  - apply cast_Float64_raise in Hcast as [-> _]. reflexivity.
Qed.

(** A selected column that the reader cannot read fails the call. *)
Lemma process_csv_unreadable (n : string) (e : pl.CsvError) :
  pl.selected eng (pl.header cols) name = Ok [n] ->
  pl.lookup cols n = Some (pl.Unreadable e) ->
  process_csv eng fs path name = Raise (processing_error (pl.csv_exception e)).
Proof.
  intros Hsel Hcol. rewrite (process_csv_collect cols Hfile).
  rewrite (resolve_one _ _ _ _ Hsel). cbn [bind].
  rewrite execute_aggregations. unfold pl.column. rewrite Hcol.
  destruct e; reflexivity.
Qed.

(** The column a single selection stands for. *)
Lemma selected_lookup (n : string) :
  pl.selected eng (pl.header cols) name = Ok [n] ->
  exists c, pl.lookup cols n = Some c.
Proof.
  intros Hsel. apply mem_lookup.
  apply (selected_mem _ _ _ _ n Hsel). now left.
Qed.

(** Every return comes from one readable column and its cast. *)
Lemma process_csv_ok (st : SelectedStats.t) :
  process_csv eng fs path name = Ok st ->
  exists n s v,
    pl.selected eng (pl.header cols) name = Ok [n]
    /\ pl.lookup cols n = Some (pl.Read s)
    /\ pl.cast_Float64 eng n s = Ok v
    /\ st = stats_of eng s v.
Proof.
  intros Hrun.
  destruct (pl.selected eng (pl.header cols) name) as [[|n [|n2 ns]]|e] eqn:Hsel.
  - rewrite (process_csv_nothing Hsel) in Hrun. discriminate.
  - destruct (selected_lookup n Hsel) as [[s|e] Hcol].
    + rewrite (process_csv_one n s Hsel Hcol) in Hrun.
      destruct (pl.cast_Float64 eng n s) as [v|e] eqn:Hcast; [|discriminate].
      injection Hrun as <-. exists n, s, v. auto.
    + rewrite (process_csv_unreadable n e Hsel Hcol) in Hrun. discriminate.
  - rewrite (process_csv_several _ _ _ Hsel) in Hrun. discriminate.
  - rewrite (process_csv_unknown _ Hsel) in Hrun. discriminate.
Qed.

End Cases.

(** The program's cast is the view when every cell coerces, and an error
    otherwise. *)
Lemma cast_Float64_view (eng : pl.Engine) (name : string) (s : pl.Series) :
  pl.cast_Float64 eng name s =
    if all_coerce s then Ok (numeric_view s)
    else Raise (pl.cast_failure eng name s).
Proof. destruct s; reflexivity. Qed.

Lemma forallb_is_some_non_null {A : Type} (v : list (option A)) :
  forallb is_some v = true -> List.length (pl.non_null v) = List.length v.
Proof.
  induction v as [|[a|] v IH]; simpl; intros H.
  - reflexivity.
  - f_equal. auto.
  - discriminate.
Qed.

Lemma all_numbers_coerce (s : pl.Series) :
  all_numbers s = true -> all_coerce s = true.
Proof.
  destruct s as [v|v|v|v|v]; simpl; auto.
  induction v as [|[t|] v IH]; simpl; auto.
  - unfold pl.castable. destruct (Binary64.of_string t); simpl; auto.
  - discriminate.
Qed.

Lemma all_numbers_count (s : pl.Series) :
  all_numbers s = true -> pl.count_non_null s = Z.of_nat (pl.len s).
Proof.
  destruct s as [v|v|v|v|v]; simpl; intros H; f_equal;
    try (now apply forallb_is_some_non_null); try discriminate.
  induction v as [|[t|] v IH]; simpl in *.
  - reflexivity.
  - apply andb_prop in H as [_ H]. f_equal. auto.
  - discriminate.
Qed.

Lemma reduce_none (f : Binary64.t -> Binary64.t -> Binary64.t)
  (xs : list Binary64.t) :
  pl.reduce f xs = None <-> xs = [].
Proof. destruct xs; simpl; split; congruence. Qed.

Lemma agg_mean_none (eng : pl.Engine) (v : list (option Binary64.t)) :
  pl.agg_mean eng v = None <-> pl.non_null v = [].
Proof.
  unfold pl.agg_mean. destruct (pl.non_null v); split; congruence.
Qed.

Lemma length_zero_nil {A : Type} (xs : list A) :
  Z.of_nat (List.length xs) = 0 <-> xs = [].
Proof.
  destruct xs; simpl; split; congruence.
Qed.

(* ================================================================== *)
(** * Statistics of a column *)
(* ================================================================== *)

Section Statistics.

Variable eng : pl.Engine.
Variable fs : pl.FileSystem.
Variable path : pl.Path.
Variable name : string.
Variable df : pl.DataFrame.
Variable s : pl.Series.

Hypothesis Hfile : fs path = pl.Csv df.
Hypothesis Hplain : pl.is_plain name = true.
Hypothesis Hcol : pl.get_column df name = Some s.

Lemma process_csv_column :
  process_csv eng fs path name =
    match pl.cast_Float64 eng name s with
    | Ok v => Ok (stats_of eng s v)
    | Raise e => Raise (processing_error e)
    end.
Proof.
  apply (process_csv_one eng fs path name _ Hfile name s).
  - rewrite header_csv, (selected_plain eng _ _ Hplain).
    now rewrite (get_column_mem df name s Hcol).
  - now rewrite lookup_csv, Hcol.
Qed.


(** C2, amended.  When no cell of the column coerces to a number,
    either every cell is null, and the result has [count = 0], [min],
    [max] and [mean] absent and [sum = 0.0]; or some non-null cell does
    not coerce, and [process_csv] fails with [RuntimeError]. *)
Theorem process_csv_no_numbers :
  pl.non_null (numeric_view s) = [] ->
  process_csv eng fs path name =
    if all_coerce s
    then Ok {| SelectedStats.count := 0;
               SelectedStats.min := None;
               SelectedStats.max := None;
               SelectedStats.sum := Some Binary64.zero;
               SelectedStats.mean := None |}
    else Raise (processing_error (pl.cast_failure eng name s)).
Proof.
  intros Hnone. rewrite process_csv_column.
  pose proof (cast_Float64_count eng name s) as Hcount.
  rewrite cast_Float64_view in *.
  destruct (all_coerce s); [|reflexivity].
  specialize (Hcount _ eq_refl). rewrite Hnone in Hcount. simpl in Hcount.
  unfold stats_of, pl.agg_min, pl.agg_max, pl.agg_sum, pl.agg_mean.
  rewrite Hnone, <- Hcount. reflexivity.
Qed.

(** C6.  For a column of [N] cells that all hold numbers, [count] is [N]
    and, when [N] is not zero, [mean] is the binary64 quotient of [sum]
    by [count]. *)
Theorem process_csv_all_numbers :
  all_numbers s = true ->
  exists st,
    process_csv eng fs path name = Ok st
    /\ SelectedStats.count st = Z.of_nat (pl.len s)
    /\ (pl.len s <> 0%nat ->
        exists total,
          SelectedStats.sum st = Some total
          /\ SelectedStats.mean st =
               Some (Binary64.div total (Binary64.of_Z (SelectedStats.count st)))).
Proof.
  intros Hnum. exists (expected_stats eng s).
  pose proof (cast_Float64_count eng name s) as Hcount.
  rewrite process_csv_column, cast_Float64_view in *.
  rewrite (all_numbers_coerce s Hnum) in *.
  specialize (Hcount _ eq_refl).
  pose proof (all_numbers_count s Hnum) as Hlen.
  repeat split; [exact Hlen|].
  intros Hpos. exists (pl.total eng (numeric_view s)).
  unfold expected_stats, stats_of, pl.agg_sum, pl.agg_mean; simpl.
  rewrite <- Hcount.
  destruct (pl.non_null (numeric_view s)) as [|x xs] eqn:Hv.
  - simpl in Hcount. rewrite <- Hcount in Hlen.
    destruct (pl.len s); [contradiction | discriminate].
  - split; reflexivity.
Qed.

End Statistics.



Lemma process_csv_no_numbers_witness :
  disk "blank.csv" = pl.Csv blank_csv
  /\ pl.is_plain "amount" = true
  /\ pl.get_column blank_csv "amount" = Some blank_column
  /\ pl.non_null (numeric_view blank_column) = []
  /\ process_csv polars disk "blank.csv" "amount"
     = Ok {| SelectedStats.count := 0;
             SelectedStats.min := None;
             SelectedStats.max := None;
             SelectedStats.sum := Some Binary64.zero;
             SelectedStats.mean := None |}.
Proof.
  refine (conj eq_refl (conj eq_refl (conj eq_refl (conj eq_refl _)))).
  exact (process_csv_no_numbers polars disk "blank.csv" "amount"
           blank_csv blank_column eq_refl eq_refl eq_refl eq_refl).
Defined.

(** C2 as the specification states it fails on a column of blank cells:
    no value coerces, and [sum] is present. *)
Lemma sum_of_nothing_is_present :
  pl.non_null (numeric_view blank_column) = []
  /\ exists st,
       process_csv polars disk "blank.csv" "amount" = Ok st
       /\ SelectedStats.sum st = Some Binary64.zero
       /\ SelectedStats.sum st <> None.
Proof.
  split; [reflexivity|].
  eexists. split; [vm_compute; reflexivity|].
  split; [reflexivity | discriminate].
Qed.

Lemma process_csv_all_numbers_witness :
  disk "numbers.csv" = pl.Csv numbers_csv
  /\ pl.is_plain "amount" = true
  /\ pl.get_column numbers_csv "amount"
     = Some (pl.Int64Series [Some 10; Some 20; Some 30])
  /\ all_numbers (pl.Int64Series [Some 10; Some 20; Some 30]) = true
  /\ exists st,
       process_csv polars disk "numbers.csv" "amount" = Ok st
       /\ SelectedStats.count st = 3
       /\ (3%nat <> 0%nat ->
           exists total,
             SelectedStats.sum st = Some total
             /\ SelectedStats.mean st =
                  Some (Binary64.div total
                          (Binary64.of_Z (SelectedStats.count st)))).
Proof.
  refine (conj eq_refl (conj eq_refl (conj eq_refl (conj eq_refl _)))).
  exact (process_csv_all_numbers polars disk "numbers.csv" "amount"
           numbers_csv (pl.Int64Series [Some 10; Some 20; Some 30])
           eq_refl eq_refl eq_refl eq_refl).
Defined.

(* ================================================================== *)
(** * Presence of the statistics *)
(* ================================================================== *)

(** [process_csv] returns only for a file that has a header. *)
Lemma process_csv_ok_file (eng : pl.Engine) (fs : pl.FileSystem)
  (path : pl.Path) (name : string) (st : SelectedStats.t) :
  process_csv eng fs path name = Ok st -> exists cols, fs path = pl.Table cols.
Proof.
  intros Hrun. destruct (fs path) as [|e|cols] eqn:Hfs.
  - rewrite (process_csv_missing eng fs path name Hfs) in Hrun.
    destruct (pl.opens_at_scan eng); [|discriminate].
    destruct (pl.missing_error eng path); discriminate.
  - rewrite (process_csv_malformed eng fs path name e Hfs) in Hrun.
    destruct (pl.opens_at_scan eng); discriminate.
  - eauto.
Qed.

(** C10, amended.  In every StatsResult that [process_csv] returns,
    [min], [max] and [mean] are absent together: each of them is absent
    exactly when [count] is zero.  (Nothing is said of their order: in
    binary64 [min <= mean <= max] fails for a NaN cell and when the sum
    overflows.) *)
Theorem stats_present_together (eng : pl.Engine) (fs : pl.FileSystem)
  (path : pl.Path) (name : string) (st : SelectedStats.t) :
  process_csv eng fs path name = Ok st ->
  (SelectedStats.min st = None <-> SelectedStats.max st = None)
  /\ (SelectedStats.max st = None <-> SelectedStats.mean st = None)
  /\ (SelectedStats.mean st = None <-> SelectedStats.count st = 0).
Proof.
  intros Hrun.
  destruct (process_csv_ok_file _ _ _ _ _ Hrun) as [cols Hfs].
  destruct (process_csv_ok eng fs path name cols Hfs st Hrun)
    as (n & s & v & _ & _ & Hcast & ->).
  apply cast_Float64_count in Hcast. simpl. rewrite <- Hcast.
  unfold pl.agg_min, pl.agg_max.
  rewrite !reduce_none, agg_mean_none, length_zero_nil. tauto.
Qed.

Lemma stats_present_together_witness :
  process_csv polars disk "blank.csv" "amount"
  = Ok {| SelectedStats.count := 0;
          SelectedStats.min := None;
          SelectedStats.max := None;
          SelectedStats.sum := Some Binary64.zero;
          SelectedStats.mean := None |}
  /\ ((@None Binary64.t = None <-> @None Binary64.t = None)
      /\ (@None Binary64.t = None <-> @None Binary64.t = None)
      /\ (@None Binary64.t = None <-> 0 = 0)).
Proof.
  refine (conj eq_refl _).
  exact (stats_present_together polars disk "blank.csv" "amount" _ eq_refl).
Defined.

(** C10 as stated fails on [amount\nNaN\n]: the three statistics are
    present and [min <= mean] does not hold. *)
Lemma nan_is_not_ordered :
  exists st mn me mx,
    process_csv polars disk "nan.csv" "amount" = Ok st
    /\ SelectedStats.min st = Some mn
    /\ SelectedStats.mean st = Some me
    /\ SelectedStats.max st = Some mx
    /\ Binary64.leb mn me = false.
Proof.
  do 4 eexists. split; [vm_compute; reflexivity|].
  repeat split; reflexivity.
Qed.

(** The order also fails on finite cells: the sum of [1e308] and
    [1e308] overflows, and the mean is above the maximum. *)
Example mean_above_max :
  exists st me mx,
    process_csv polars disk "huge.csv" "amount" = Ok st
    /\ SelectedStats.mean st = Some me
    /\ SelectedStats.max st = Some mx
    /\ Binary64.is_finite mx = true
    /\ Binary64.leb me mx = false.
Proof.
  do 3 eexists. split; [vm_compute; reflexivity|].
  repeat split; reflexivity.
Qed.

(* ================================================================== *)
(** * Errors *)
(* ================================================================== *)

(** C3, amended.  [process_csv] raises [ValueError], its missing-column
    error, exactly when the reader finds a header in the file, the
    column name is a plain name (neither [*] nor a pattern [^...$]) and
    the header does not contain it.  Whether the rest of the file can be
    read does not matter: the header is resolved before any cell is
    read. *)
Theorem column_not_found_iff (eng : pl.Engine) (fs : pl.FileSystem)
  (path : pl.Path) (name : string) :
  (exists msg, process_csv eng fs path name = Raise (ValueError msg))
  <-> exists cols,
        fs path = pl.Table cols
        /\ pl.is_plain name = true
        /\ pl.mem name (pl.header cols) = false.
Proof.
  split.
  - intros [msg Hrun]. destruct (fs path) as [|e|cols] eqn:Hfs.
    + rewrite (process_csv_missing eng fs path name Hfs) in Hrun.
      destruct (pl.opens_at_scan eng); [|discriminate].
      destruct (pl.missing_error eng path); discriminate.
    + rewrite (process_csv_malformed eng fs path name e Hfs) in Hrun.
      destruct (pl.opens_at_scan eng); discriminate.
    + exists cols. split; [reflexivity|].
      destruct (pl.selected eng (pl.header cols) name)
        as [[|n [|n2 ns]]|e] eqn:Hsel.
      * rewrite (process_csv_nothing eng fs path name cols Hfs Hsel) in Hrun.
        discriminate.
      * destruct (selected_lookup eng name cols n Hsel) as [[s|e] Hcol].
        -- rewrite (process_csv_one eng fs path name cols Hfs n s Hsel Hcol)
             in Hrun.
           destruct (pl.cast_Float64 eng n s); discriminate.
        -- rewrite (process_csv_unreadable eng fs path name cols Hfs n e
                      Hsel Hcol) in Hrun.
           discriminate.
      * rewrite (process_csv_several eng fs path name cols Hfs _ _ _ Hsel)
          in Hrun.
        discriminate.
      * apply selected_raise in Hsel as (Hp & Hm & _). auto.
  - intros (cols & Hfs & Hp & Hm). eexists.
    apply (process_csv_unknown eng fs path name cols Hfs
             (ColumnNotFoundError name)).
    rewrite (selected_plain eng _ _ Hp), Hm. reflexivity.
Qed.

(** C3 as stated fails for the column name [*]: the header of
    [amount\n10\n20\n30\n] does not contain it, and the program returns
    the statistics of [amount]. *)
Lemma wildcard_is_found :
  pl.mem "*" (pl.columns numbers_csv) = false
  /\ process_csv polars disk "numbers.csv" "*"
     = Ok {| SelectedStats.count := 3;
             SelectedStats.min := Some (f64 10);
             SelectedStats.max := Some (f64 30);
             SelectedStats.sum := Some (f64 60);
             SelectedStats.mean := Some (f64 20) |}.
Proof. split; vm_compute; reflexivity. Qed.

(** The header comes first also on a file the reader rejects further
    down: a name the header lacks gives the column error, the readable
    column gives statistics, the unreadable one fails. *)
Example header_is_resolved_first :
  process_csv polars disk "late.csv" "zzz"
  = Raise (ValueError "Error: Column 'zzz' not found in the file.")
  /\ (exists st, process_csv polars disk "late.csv" "a" = Ok st)
  /\ (exists msg, process_csv polars disk "late.csv" "b" = Raise (RuntimeError msg)).
Proof.
  split; [vm_compute; reflexivity|].
  split; eexists; vm_compute; reflexivity.
Qed.

(** X1.  Unless the column name is a pattern that selects no column of
    the file, [process_csv] returns or raises one of [FileNotFoundError],
    [ValueError] and [RuntimeError]: the two [try] blocks wrap every
    error of [scan_csv] and [collect]. *)
Lemma error_surface (eng : pl.Engine) (fs : pl.FileSystem)
  (path : pl.Path) (name : string) :
  selects_nothing eng fs path name = false ->
  match process_csv eng fs path name with
  | Ok _ => True
  | Raise (FileNotFoundError _) | Raise (ValueError _)
  | Raise (RuntimeError _) => True
  | Raise _ => False
  end.
Proof.
  unfold selects_nothing. intros Hsome.
  destruct (fs path) as [|e|cols] eqn:Hfs.
  - rewrite (process_csv_missing eng fs path name Hfs).
    destruct (pl.opens_at_scan eng); [|exact I].
    now destruct (pl.missing_error eng path).
  - rewrite (process_csv_malformed eng fs path name e Hfs).
    now destruct (pl.opens_at_scan eng).
  - destruct (pl.selected eng (pl.header cols) name)
      as [[|n [|n2 ns]]|e] eqn:Hsel.
    + discriminate.
    + destruct (selected_lookup eng name cols n Hsel) as [[s|e] Hcol].
      * rewrite (process_csv_one eng fs path name cols Hfs n s Hsel Hcol).
        now destruct (pl.cast_Float64 eng n s).
      * now rewrite (process_csv_unreadable eng fs path name cols Hfs n e
                       Hsel Hcol).
    + now rewrite (process_csv_several eng fs path name cols Hfs _ _ _ Hsel).
    + now rewrite (process_csv_unknown eng fs path name cols Hfs _ Hsel).
Qed.

Example error_surface_on_text :
  selects_nothing polars disk "mixed.csv" "amount" = false
  /\ match process_csv polars disk "mixed.csv" "amount" with
     | Ok _ => True
     | Raise (FileNotFoundError _) | Raise (ValueError _)
     | Raise (RuntimeError _) => True
     | Raise _ => False
     end.
Proof.
  refine (conj eq_refl _).
  exact (error_surface polars disk "mixed.csv" "amount" eq_refl).
Defined.

(** C9.  The one error that is not wrapped: for a pattern that matches
    no column the frame of results is empty, [stats_df.row(0)] at
    [main.py:58] is outside both [try] blocks, and the error of the
    engine reaches the caller as it is; [main] does not catch it. *)
Theorem unmatched_pattern_escapes :
  pl.is_regex "^zzz$" = true
  /\ process_csv polars disk "numbers.csv" "^zzz$"
     = Raise (OutOfBoundsError
                "index 0 is out of bounds for sequence of length 0")
  /\ uncaught (main polars disk
                 {| file_path := "numbers.csv"; column_name := "^zzz$" |})
     = Some (OutOfBoundsError
               "index 0 is out of bounds for sequence of length 0").
Proof. repeat split; vm_compute; reflexivity. Qed.

(** C4.  A path with no file behind it: [scan_csv] builds the plan
    without opening anything, [collect] raises [FileNotFoundError], and
    the second [try] block turns it into the generic [RuntimeError]. *)
Theorem missing_file_is_generic :
  disk "absent.csv" = pl.Missing
  /\ process_csv polars disk "absent.csv" "amount"
     = Raise (RuntimeError
                "Error processing data with Polars: No such file or directory (os error 2): absent.csv").
Proof. split; vm_compute; reflexivity. Qed.

(** With an engine that opens the file in [scan_csv] and raises
    [FileNotFoundError] there, the first [try] block sees the error and
    the result is [FileNotFoundError]. *)
Example missing_file_eager :
  process_csv polars_eager disk "absent.csv" "amount"
  = Raise (FileNotFoundError "Error: The file 'absent.csv' was not found.").
Proof. vm_compute. reflexivity. Qed.

(** With an engine that raises a plain [OSError] from [scan_csv], the
    first [try] block gives the generic error too. *)
Example missing_file_os_error :
  process_csv polars_os_error disk "absent.csv" "amount"
  = Raise (RuntimeError
             "Error reading CSV file: No such file or directory (os error 2): absent.csv").
Proof. vm_compute. reflexivity. Qed.
(* ================================================================== *)
(** * The process: streams and exit status *)
(* ================================================================== *)

Lemma line_breaks_app (a b : string) :
  line_breaks (a ++ b) = (line_breaks a + line_breaks b)%nat.
Proof.
  induction a as [|c a IH]; simpl; [reflexivity|].
  rewrite IH. apply Nat.add_assoc.
Qed.

Lemma line_breaks_print (s : string) :
  line_breaks (print s "") = S (line_breaks s).
Proof.
  unfold print. simpl. rewrite line_breaks_app. simpl. lia.
Qed.

(** C7, amended.  A run that returns statistics prints the report and
    ends with status 0 and nothing on standard error.  A run that fails
    ends with status 1 and nothing on standard output; when the error is
    one of the three that [main] catches, standard error receives its
    message and one line break, so one line more than the message has
    line breaks; any other error is left to the interpreter. *)
Theorem main_outcome (eng : pl.Engine) (fs : pl.FileSystem) (args : Namespace) :
  let o := main eng fs args in
  match process_csv eng fs (file_path args) (column_name args) with
  | Ok st =>
      exit_status o = 0
      /\ stdout o = report (column_name args) st
      /\ stderr o = ""
      /\ uncaught o = None
  | Raise e =>
      exit_status o = 1
      /\ stdout o = ""
      /\ if caught e
         then stderr o = str e ++ newline
              /\ line_breaks (stderr o) = S (line_breaks (str e))
              /\ uncaught o = None
         else stderr o = "" /\ uncaught o = Some e
  end.
Proof.
  unfold main.
  destruct (process_csv eng fs (file_path args) (column_name args)) as [st|e].
  - simpl. auto.
  - destruct (caught e); simpl; repeat split.
    apply line_breaks_print.
Qed.

(** C7 as stated fails for a column name with a line break in it: the
    message on standard error has two lines. *)
Lemma error_on_two_lines :
  let o := main polars disk
             {| file_path := "numbers.csv"; column_name := two_lines |} in
  exit_status o = 1
  /\ stderr o = "Error: Column 'a" ++ newline ++ "b' not found in the file."
                ++ newline
  /\ line_breaks (stderr o) = 2%nat.
Proof. repeat split. Qed.

(* ================================================================== *)
(** * Rendering *)
(* ================================================================== *)

Lemma append_assoc (a b c : string) : (a ++ b) ++ c = a ++ (b ++ c).
Proof. induction a as [|x a IH]; simpl; [reflexivity | now rewrite IH]. Qed.

Lemma all_digits_no_point (s : string) :
  all_digits s = true -> no_point s = true.
Proof.
  induction s as [|c s IH]; simpl; [reflexivity|].
  intros H. apply andb_prop in H as [Hc Hs]. rewrite (IH Hs), andb_true_r.
  destruct (Ascii.eqb c ".") eqn:E; [|reflexivity].
  apply Ascii.eqb_eq in E. subst c. discriminate.
Qed.

Lemma no_point_app (a b : string) :
  no_point (a ++ b) = no_point a && no_point b.
Proof.
  induction a as [|c a IH]; simpl; [reflexivity|].
  now rewrite IH, andb_assoc.
Qed.

Lemma split_point_app (a d : string) :
  no_point a = true -> split_point (a ++ String "." d) = Some (a, d).
Proof.
  induction a as [|c a IH]; simpl; [reflexivity|].
  intros H. apply andb_prop in H as [Hc Ha].
  destruct (Ascii.eqb c "."); [discriminate|]. now rewrite (IH Ha).
Qed.

Lemma all_digits_uint (u : Decimal.uint) :
  all_digits (NilEmpty.string_of_uint u) = true.
Proof. induction u; simpl; auto. Qed.

Lemma decimal_of_Z_plain (z : Z) :
  0 <= z -> plain_integer (Binary64.decimal_of_Z z) = true.
Proof.
  intros Hz. destruct z as [|p|p]; [reflexivity| |lia].
  unfold Binary64.decimal_of_Z, plain_integer. simpl.
  pose proof (DecimalPos.Unsigned.to_uint_nonnil p) as Hnil.
  pose proof (all_digits_uint (Pos.to_uint p)) as Hdig.
  destruct (Pos.to_uint p); [contradiction | ..]; exact Hdig.
Qed.

Lemma digit_char_is_digit (d : Z) :
  0 <= d < 10 -> is_digit (Binary64.digit_char d) = true.
Proof.
  intros Hd.
  assert (H : d = 0 \/ d = 1 \/ d = 2 \/ d = 3 \/ d = 4 \/ d = 5 \/ d = 6
              \/ d = 7 \/ d = 8 \/ d = 9) by lia.
  repeat (destruct H as [->|H]; [reflexivity|]). subst d. reflexivity.
Qed.

Lemma frac4_digits (n : Z) :
  String.length (Binary64.frac4 n) = 4%nat
  /\ all_digits (Binary64.frac4 n) = true.
Proof.
  split; [reflexivity|].
  unfold Binary64.frac4. cbn [all_digits].
  rewrite !digit_char_is_digit; [reflexivity | ..];
    apply Z.mod_pos_bound; lia.
Qed.

Lemma fixed4_four_decimals (neg : bool) (n : Z) :
  0 <= n -> four_decimals (Binary64.fixed4 neg n) = true.
Proof.
  intros Hn. unfold Binary64.fixed4, four_decimals.
  change ("." ++ Binary64.frac4 (n mod 10000))
    with (String "." (Binary64.frac4 (n mod 10000))).
  rewrite <- append_assoc, split_point_app.
  - destruct (frac4_digits (n mod 10000)) as [-> ->]. reflexivity.
  - rewrite no_point_app. apply andb_true_intro. split.
    + now destruct neg.
    + apply all_digits_no_point.
      assert (Hq : 0 <= n / 10000) by (apply Z.div_pos; lia).
      pose proof (decimal_of_Z_plain _ Hq) as Hp.
      unfold plain_integer in Hp. now apply andb_prop in Hp.
Qed.

Lemma round_half_even_nonneg (num den : Z) :
  0 <= num -> 0 < den -> 0 <= Binary64.round_half_even num den.
Proof.
  intros Hn Hd. unfold Binary64.round_half_even.
  assert (Hq : 0 <= num / den) by (apply Z.div_pos; lia).
  destruct (2 * (num mod den) ?= den); [destruct (Z.even _)| |]; lia.
Qed.

Lemma scaled4_nonneg (m : positive) (e : Z) : 0 <= Binary64.scaled4 m e.
Proof.
  unfold Binary64.scaled4. destruct (0 <=? e) eqn:He.
  - apply Z.leb_le in He.
    assert (0 <= 2 ^ e) by (apply Z.pow_nonneg; lia). nia.
  - apply Z.leb_gt in He. apply round_half_even_nonneg; [lia|].
    apply Z.pow_pos_nonneg; lia.
Qed.

(** A finite value has four decimals; the others are [inf], [-inf], [nan]. *)
Lemma format_opt_rendered (val : option Binary64.t) :
  rendered val (format_opt val).
Proof.
  destruct val as [[s|s| |s m e]|]; simpl.
  - now apply fixed4_four_decimals.
  - destruct s; auto.
  - auto.
  - apply fixed4_four_decimals, scaled4_nonneg.
  - reflexivity.
Qed.

Lemma report_layout (column_name : string) (st : SelectedStats.t) :
  report column_name st =
    layout column_name
      (Binary64.decimal_of_Z (SelectedStats.count st))
      (format_opt (SelectedStats.min st))
      (format_opt (SelectedStats.max st))
      (format_opt (SelectedStats.sum st))
      (format_opt (SelectedStats.mean st)).
Proof.
  unfold report, layout, print. rewrite !append_assoc. reflexivity.
Qed.

Lemma count_non_null_nonneg (s : pl.Series) : 0 <= pl.count_non_null s.
Proof. destruct s; simpl; lia. Qed.

(** C5, amended.  On a successful run standard output is the seven
    lines of the report, in which [count] is a plain integer, an absent
    field is [N/A], a finite field has exactly four digits after the
    decimal point, and an infinite or NaN field is [inf], [-inf] or
    [nan]. *)
Theorem report_rendering (eng : pl.Engine) (fs : pl.FileSystem)
  (args : Namespace) (st : SelectedStats.t) :
  process_csv eng fs (file_path args) (column_name args) = Ok st ->
  exists c mn mx sm me,
    stdout (main eng fs args) = layout (column_name args) c mn mx sm me
    /\ plain_integer c = true
    /\ rendered (SelectedStats.min st) mn
    /\ rendered (SelectedStats.max st) mx
    /\ rendered (SelectedStats.sum st) sm
    /\ rendered (SelectedStats.mean st) me.
Proof.
  intros Hrun.
  exists (Binary64.decimal_of_Z (SelectedStats.count st)),
    (format_opt (SelectedStats.min st)), (format_opt (SelectedStats.max st)),
    (format_opt (SelectedStats.sum st)), (format_opt (SelectedStats.mean st)).
  split.
  - unfold main. rewrite Hrun. simpl. apply report_layout.
  - split; [|repeat split; apply format_opt_rendered].
    destruct (process_csv_ok_file _ _ _ _ _ Hrun) as [df Hfs].
    destruct (process_csv_ok eng fs _ _ df Hfs st Hrun)
      as (n & s & v & _ & _ & _ & ->).
    apply decimal_of_Z_plain, count_non_null_nonneg.
Qed.

Lemma report_rendering_witness :
  process_csv polars disk "numbers.csv" "amount"
  = Ok {| SelectedStats.count := 3;
          SelectedStats.min := Some (f64 10);
          SelectedStats.max := Some (f64 30);
          SelectedStats.sum := Some (f64 60);
          SelectedStats.mean := Some (f64 20) |}
  /\ exists c mn mx sm me,
       stdout (main polars disk
                 {| file_path := "numbers.csv"; column_name := "amount" |})
       = layout "amount" c mn mx sm me
       /\ plain_integer c = true
       /\ rendered (Some (f64 10)) mn
       /\ rendered (Some (f64 30)) mx
       /\ rendered (Some (f64 60)) sm
       /\ rendered (Some (f64 20)) me.
Proof.
  refine (conj eq_refl _).
  exact (report_rendering polars disk
           {| file_path := "numbers.csv"; column_name := "amount" |} _ eq_refl).
Defined.

Example report_of_numbers :
  stdout (main polars disk
            {| file_path := "numbers.csv"; column_name := "amount" |})
  = layout "amount" "3" "10.0000" "30.0000" "60.0000" "20.0000".
Proof. vm_compute. reflexivity. Qed.

(** C5 as stated fails on [amount\n1e308\n1e308\n]: the sum is present,
    it is infinite, and it is printed as [inf], with no decimal point. *)
Lemma infinite_sum_has_no_decimals :
  exists st x,
    process_csv polars disk "huge.csv" "amount" = Ok st
    /\ SelectedStats.sum st = Some x
    /\ format_opt (SelectedStats.sum st) = "inf"
    /\ four_decimals (format_opt (SelectedStats.sum st)) = false.
Proof.
  do 2 eexists. split; [vm_compute; reflexivity|].
  repeat split; reflexivity.
Qed.


(* ================================================================== *)
(** * More on the errors of [process_csv] *)
(* ================================================================== *)

(** X2.  What the three errors of [process_csv] say: the file error
    names the path, the column error names the column, and a
    [RuntimeError] starts with one of the two fixed prefixes. *)
Theorem error_messages (eng : pl.Engine) (fs : pl.FileSystem)
  (path : pl.Path) (name : string) :
  match process_csv eng fs path name with
  | Raise (FileNotFoundError m) =>
      m = "Error: The file '" ++ path ++ "' was not found."
  | Raise (ValueError m) =>
      m = "Error: Column '" ++ name ++ "' not found in the file."
  | Raise (RuntimeError m) =>
      (exists detail, m = "Error reading CSV file: " ++ detail)
      \/ (exists detail, m = "Error processing data with Polars: " ++ detail)
  | _ => True
  end.
Proof.
  destruct (fs path) as [|e|cols] eqn:Hfs.
  - rewrite (process_csv_missing eng fs path name Hfs).
    destruct (pl.opens_at_scan eng).
    + destruct (pl.missing_error eng path); simpl; try reflexivity;
        left; eexists; reflexivity.
    + right. eexists. reflexivity.
  - rewrite (process_csv_malformed eng fs path name e Hfs).
    destruct (pl.opens_at_scan eng); [left | right]; eexists; reflexivity.
  - destruct (pl.selected eng (pl.header cols) name)
      as [[|n [|n2 ns]]|e] eqn:Hsel.
    + now rewrite (process_csv_nothing eng fs path name cols Hfs Hsel).
    + destruct (selected_lookup eng name cols n Hsel) as [[s|e] Hcol].
      * rewrite (process_csv_one eng fs path name cols Hfs n s Hsel Hcol).
        destruct (pl.cast_Float64 eng n s); [exact I|].
        right. eexists. reflexivity.
      * rewrite (process_csv_unreadable eng fs path name cols Hfs n e
                   Hsel Hcol).
        right. eexists. reflexivity.
    + rewrite (process_csv_several eng fs path name cols Hfs _ _ _ Hsel).
      right. eexists. reflexivity.
    + now rewrite (process_csv_unknown eng fs path name cols Hfs _ Hsel).
Qed.

(** X3.  The header is looked at before the column: when the path leads
    to no file, or to a file in which the reader finds no header, the
    outcome is the same for every column name. *)
Theorem file_before_column (eng : pl.Engine) (fs : pl.FileSystem)
  (path : pl.Path) (name1 name2 : string) :
  has_header (fs path) = false ->
  process_csv eng fs path name1 = process_csv eng fs path name2.
Proof.
  intros Hno. destruct (fs path) as [|e|cols] eqn:Hfs; [| |discriminate].
  - now rewrite !(process_csv_missing eng fs path _ Hfs).
  - now rewrite !(process_csv_malformed eng fs path _ e Hfs).
Qed.

Lemma file_before_column_witness :
  has_header (disk "empty.csv") = false
  /\ process_csv polars disk "empty.csv" "amount"
     = process_csv polars disk "empty.csv" "no such column".
Proof.
  refine (conj eq_refl _).
  exact (file_before_column polars disk "empty.csv" "amount"
           "no such column" eq_refl).
Defined.

(** With a header, the column name matters also on a file that the
    reader rejects further down. *)
Example column_matters_with_header :
  has_header (disk "late.csv") = true
  /\ process_csv polars disk "late.csv" "a"
     <> process_csv polars disk "late.csv" "b".
Proof. split; [reflexivity | vm_compute; discriminate]. Qed.

(** X4.  What the reader cannot read gives [RuntimeError]: a file in
    which it finds no header (an empty file), for every column name, and
    a file with a header when the one selected column cannot be read.
    Never the file error, never the column error. *)
Theorem rejected_file_is_runtime_error (eng : pl.Engine) (fs : pl.FileSystem)
  (path : pl.Path) (name : string) :
  (exists e, fs path = pl.Malformed e)
  \/ (exists cols n e,
        fs path = pl.Table cols
        /\ pl.selected eng (pl.header cols) name = Ok [n]
        /\ pl.lookup cols n = Some (pl.Unreadable e)) ->
  exists msg, process_csv eng fs path name = Raise (RuntimeError msg).
Proof.
  intros [[e Hfs] | (cols & n & e & Hfs & Hsel & Hcol)].
  - rewrite (process_csv_malformed eng fs path name e Hfs).
    destruct (pl.opens_at_scan eng); eexists; reflexivity.
  - rewrite (process_csv_unreadable eng fs path name cols Hfs n e Hsel Hcol).
    eexists. reflexivity.
Qed.

Lemma rejected_file_is_runtime_error_witness :
  ((exists e, disk "late.csv" = pl.Malformed e)
   \/ (exists cols n e,
         disk "late.csv" = pl.Table cols
         /\ pl.selected polars (pl.header cols) "b" = Ok [n]
         /\ pl.lookup cols n = Some (pl.Unreadable e)))
  /\ exists msg,
       process_csv polars disk "late.csv" "b" = Raise (RuntimeError msg).
Proof.
  assert (H : (exists e, disk "late.csv" = pl.Malformed e)
              \/ (exists cols n e,
                    disk "late.csv" = pl.Table cols
                    /\ pl.selected polars (pl.header cols) "b" = Ok [n]
                    /\ pl.lookup cols n = Some (pl.Unreadable e))).
  { right.
    exists late_csv, "b", (pl.ParseFailure "could not parse `x` as dtype `i64`").
    repeat split. }
  refine (conj H _).
  exact (rejected_file_is_runtime_error polars disk "late.csv" "b" H).
Defined.

Example empty_file_is_runtime_error :
  process_csv polars disk "empty.csv" "amount"
  = Raise (RuntimeError
             "Error processing data with Polars: empty CSV").
Proof. vm_compute. reflexivity. Qed.

(** X5.  A path with no file behind it never gives statistics and never
    the column error.  It gives [FileNotFoundError], naming the path,
    only when the engine opens the file in [scan_csv] and reports the
    missing file as a [FileNotFoundError] there; when the open is left to
    [collect], or [scan_csv] raises another error (an [OSError], a
    [ComputeError]), the result is [RuntimeError]. *)
Theorem missing_file_outcome (eng : pl.Engine) (fs : pl.FileSystem)
  (path : pl.Path) (name : string) :
  fs path = pl.Missing ->
  match process_csv eng fs path name with
  | Raise (FileNotFoundError m) =>
      m = "Error: The file '" ++ path ++ "' was not found."
      /\ pl.opens_at_scan eng = true
      /\ exists detail, pl.missing_error eng path = FileNotFoundError detail
  | Raise (RuntimeError m) =>
      pl.opens_at_scan eng = false
      \/ (m = "Error reading CSV file: " ++ str (pl.missing_error eng path)
          /\ forall detail,
               pl.missing_error eng path <> FileNotFoundError detail)
  | _ => False
  end.
Proof.
  intros Hfs. rewrite (process_csv_missing eng fs path name Hfs).
  destruct (pl.opens_at_scan eng); [|now left].
  destruct (pl.missing_error eng path) eqn:He; simpl;
    try (right; split; [reflexivity | intros d; discriminate]).
  repeat split. eexists. reflexivity.
Qed.

Lemma missing_file_outcome_witness :
  disk "absent.csv" = pl.Missing
  /\ match process_csv polars_os_error disk "absent.csv" "amount" with
     | Raise (FileNotFoundError m) =>
         m = "Error: The file '" ++ "absent.csv" ++ "' was not found."
         /\ pl.opens_at_scan polars_os_error = true
         /\ exists detail,
              pl.missing_error polars_os_error "absent.csv"
              = FileNotFoundError detail
     | Raise (RuntimeError m) =>
         pl.opens_at_scan polars_os_error = false
         \/ (m = "Error reading CSV file: "
                 ++ str (pl.missing_error polars_os_error "absent.csv")
             /\ forall detail,
                  pl.missing_error polars_os_error "absent.csv"
                  <> FileNotFoundError detail)
     | _ => False
     end.
Proof.
  refine (conj eq_refl _).
  exact (missing_file_outcome polars_os_error disk "absent.csv" "amount"
           eq_refl).
Defined.

(** X6.  The five results have fixed names, so a column name that
    selects two columns or more (the wildcard on a file with several
    columns, a pattern with several matches) cannot be served: the
    engine refuses the duplicate names and [process_csv] fails with
    [RuntimeError]. *)
Theorem several_columns_fail (eng : pl.Engine) (fs : pl.FileSystem)
  (path : pl.Path) (name : string) (df : pl.DataFrame)
  (n1 n2 : string) (ns : list string) :
  fs path = pl.Csv df ->
  pl.selected eng (pl.columns df) name = Ok (n1 :: n2 :: ns) ->
  exists msg, process_csv eng fs path name = Raise (RuntimeError msg).
Proof.
  intros Hfs Hsel. rewrite <- header_csv in Hsel.
  rewrite (process_csv_several eng fs path name _ Hfs _ _ _ Hsel).
  eexists. reflexivity.
Qed.

Lemma several_columns_fail_witness :
  disk "blank.csv" = pl.Csv blank_csv
  /\ pl.selected polars (pl.columns blank_csv) "*" = Ok ["id"; "amount"]
  /\ exists msg,
       process_csv polars disk "blank.csv" "*" = Raise (RuntimeError msg).
Proof.
  refine (conj eq_refl (conj eq_refl _)).
  exact (several_columns_fail polars disk "blank.csv" "*" blank_csv
           "id" "amount" [] eq_refl eq_refl).
Defined.

(** X7.  A wildcard or pattern that selects exactly one column gives
    what the name of that column gives. *)
Theorem one_column_selected (eng : pl.Engine) (fs : pl.FileSystem)
  (path : pl.Path) (name : string) (df : pl.DataFrame) (n : string) :
  fs path = pl.Csv df ->
  pl.selected eng (pl.columns df) name = Ok [n] ->
  pl.is_plain n = true ->
  process_csv eng fs path name = process_csv eng fs path n.
Proof.
  intros Hfs Hsel Hplain.
  assert (Hm : pl.mem n (pl.columns df) = true)
    by (apply (selected_mem _ _ _ _ n Hsel); now left).
  destruct (mem_get_column df n Hm) as [s Hcol].
  rewrite (process_csv_column eng fs path n df s Hfs Hplain Hcol).
  apply (process_csv_one eng fs path name _ Hfs n s).
  - now rewrite header_csv.
  - now rewrite lookup_csv, Hcol.
Qed.

Lemma one_column_selected_witness :
  disk "numbers.csv" = pl.Csv numbers_csv
  /\ pl.selected polars (pl.columns numbers_csv) "^amount$" = Ok ["amount"]
  /\ pl.is_plain "amount" = true
  /\ process_csv polars disk "numbers.csv" "^amount$"
     = process_csv polars disk "numbers.csv" "amount".
Proof.
  refine (conj eq_refl (conj eq_refl (conj eq_refl _))).
  exact (one_column_selected polars disk "numbers.csv" "^amount$" numbers_csv
           "amount" eq_refl eq_refl eq_refl).
Defined.

(* ================================================================== *)
(** * Order of binary64 values *)
(* ================================================================== *)

Ltac compare_cases :=
  repeat match goal with
         | |- context [Pos.compare_cont Eq ?a ?b] =>
             change (Pos.compare_cont Eq a b) with (Pos.compare a b)
         | H : context [Pos.compare_cont Eq ?a ?b] |- _ =>
             change (Pos.compare_cont Eq a b) with (Pos.compare a b) in H
         end;
  repeat match goal with
         | |- context [Z.compare ?a ?b] => destruct (Z.compare_spec a b)
         | H : context [Z.compare ?a ?b] |- _ => destruct (Z.compare_spec a b)
         | |- context [Pos.compare ?a ?b] => destruct (Pos.compare_spec a b)
         | H : context [Pos.compare ?a ?b] |- _ =>
             destruct (Pos.compare_spec a b)
         end;
  simpl in *; subst; try reflexivity; try discriminate; try lia.

Lemma leb_refl (x : Binary64.t) :
  Binary64.is_nan x = false -> Binary64.leb x x = true.
Proof.
  unfold Binary64.leb, SFleb, SFcompare.
  destruct x as [s|s| |s m e]; simpl; try discriminate; intros _;
    destruct s; compare_cases.
Qed.

Lemma leb_trans (a b c : Binary64.t) :
  Binary64.leb a b = true -> Binary64.leb b c = true ->
  Binary64.leb a c = true.
Proof.
  unfold Binary64.leb, SFleb, SFcompare.
  destruct a as [sa|sa| |sa ma ea], b as [sb|sb| |sb mb eb],
    c as [sc|sc| |sc mc ec]; simpl; intros Hab Hbc;
    try discriminate; try reflexivity;
    try (destruct sa); try (destruct sb); try (destruct sc);
    try discriminate; try reflexivity; compare_cases.
Qed.

Lemma ltb_leb (a b : Binary64.t) :
  Binary64.ltb a b = true -> Binary64.leb a b = true.
Proof.
  unfold Binary64.ltb, Binary64.leb, SFltb, SFleb.
  destruct (SFcompare a b) as [[| |]|]; congruence.
Qed.

Lemma not_ltb_leb (a b : Binary64.t) :
  Binary64.is_nan a = false -> Binary64.is_nan b = false ->
  Binary64.ltb a b = false -> Binary64.leb b a = true.
Proof.
  unfold Binary64.ltb, Binary64.leb, SFltb, SFleb, SFcompare.
  destruct a as [sa|sa| |sa ma ea], b as [sb|sb| |sb mb eb]; simpl;
    intros Ha Hb Hlt; try discriminate; try reflexivity;
    try (destruct sa); try (destruct sb);
    try discriminate; try reflexivity; compare_cases.
Qed.

Lemma fmax_choice (eng : pl.Engine) (a b : Binary64.t) :
  pl.fmax eng a b = a \/ pl.fmax eng a b = b.
Proof.
  unfold pl.fmax.
  destruct (Binary64.is_nan a), (Binary64.is_nan b), (Binary64.ltb a b),
    (Binary64.ltb b a), (pl.tie_max eng a b); auto.
Qed.

Lemma fmin_choice (eng : pl.Engine) (a b : Binary64.t) :
  pl.fmin eng a b = a \/ pl.fmin eng a b = b.
Proof.
  unfold pl.fmin.
  destruct (Binary64.is_nan a), (Binary64.is_nan b), (Binary64.ltb b a),
    (Binary64.ltb a b), (pl.tie_min eng a b); auto.
Qed.

(** A fold that always keeps one of its two arguments ends on a value of
    the list. *)
Lemma fold_choice (f : Binary64.t -> Binary64.t -> Binary64.t)
  (Hf : forall a b, f a b = a \/ f a b = b)
  (xs : list Binary64.t) (x : Binary64.t) :
  In (fold_left f xs x) (x :: xs).
Proof.
  revert x. induction xs as [|y xs IH]; intros x; simpl.
  - now left.
  - pose proof (IH (f x y)) as H.
    remember (fold_left f xs (f x y)) as r eqn:Hr. clear Hr.
    destruct H as [H|H].
    + destruct (Hf x y) as [E|E]; rewrite E in H;
        [left | right; left]; exact H.
    + right. right. exact H.
Qed.

Lemma reduce_in (f : Binary64.t -> Binary64.t -> Binary64.t)
  (Hf : forall a b, f a b = a \/ f a b = b)
  (xs : list Binary64.t) (r : Binary64.t) :
  pl.reduce f xs = Some r -> In r xs.
Proof.
  destruct xs as [|x xs]; simpl; [discriminate|].
  intros [= <-]. apply (fold_choice f Hf).
Qed.

(** One step of the maximum, whichever of two equal values is kept. *)
Lemma fmax_step (eng : pl.Engine) (a b : Binary64.t) :
  Binary64.is_nan a = false -> Binary64.is_nan b = false ->
  Binary64.is_nan (pl.fmax eng a b) = false
  /\ Binary64.leb a (pl.fmax eng a b) = true
  /\ Binary64.leb b (pl.fmax eng a b) = true.
Proof.
  intros Ha Hb. unfold pl.fmax. rewrite Ha, Hb.
  destruct (Binary64.ltb a b) eqn:Hab.
  - repeat split; [exact Hb | now apply ltb_leb | now apply leb_refl].
  - destruct (Binary64.ltb b a) eqn:Hba.
    + repeat split; [exact Ha | now apply leb_refl | now apply ltb_leb].
    + destruct (pl.tie_max eng a b); repeat split;
        try assumption; try (now apply leb_refl); now apply not_ltb_leb.
Qed.

Lemma fmin_step (eng : pl.Engine) (a b : Binary64.t) :
  Binary64.is_nan a = false -> Binary64.is_nan b = false ->
  Binary64.is_nan (pl.fmin eng a b) = false
  /\ Binary64.leb (pl.fmin eng a b) a = true
  /\ Binary64.leb (pl.fmin eng a b) b = true.
Proof.
  intros Ha Hb. unfold pl.fmin. rewrite Ha, Hb.
  destruct (Binary64.ltb b a) eqn:Hba.
  - repeat split; [exact Hb | now apply ltb_leb | now apply leb_refl].
  - destruct (Binary64.ltb a b) eqn:Hab.
    + repeat split; [exact Ha | now apply leb_refl | now apply ltb_leb].
    + destruct (pl.tie_min eng a b); repeat split;
        try assumption; try (now apply leb_refl); now apply not_ltb_leb.
Qed.

Lemma fold_fmax_upper (eng : pl.Engine) (xs : list Binary64.t)
  (acc : Binary64.t) :
  Binary64.is_nan acc = false -> no_nan xs = true ->
  Binary64.leb acc (fold_left (pl.fmax eng) xs acc) = true
  /\ forall y, In y xs ->
               Binary64.leb y (fold_left (pl.fmax eng) xs acc) = true.
Proof.
  revert acc. induction xs as [|x xs IH]; intros acc Hacc Hxs; simpl.
  - split; [now apply leb_refl | intros y []].
  - simpl in Hxs. apply andb_prop in Hxs as [Hx Hxs].
    apply negb_true_iff in Hx.
    destruct (fmax_step eng acc x Hacc Hx) as (Hn & Ha & Hb).
    destruct (IH _ Hn Hxs) as [Hr Hall]. split.
    + exact (leb_trans _ _ _ Ha Hr).
    + intros y [<-|Hy]; [exact (leb_trans _ _ _ Hb Hr) | now apply Hall].
Qed.

Lemma fold_fmin_lower (eng : pl.Engine) (xs : list Binary64.t)
  (acc : Binary64.t) :
  Binary64.is_nan acc = false -> no_nan xs = true ->
  Binary64.leb (fold_left (pl.fmin eng) xs acc) acc = true
  /\ forall y, In y xs ->
               Binary64.leb (fold_left (pl.fmin eng) xs acc) y = true.
Proof.
  revert acc. induction xs as [|x xs IH]; intros acc Hacc Hxs; simpl.
  - split; [now apply leb_refl | intros y []].
  - simpl in Hxs. apply andb_prop in Hxs as [Hx Hxs].
    apply negb_true_iff in Hx.
    destruct (fmin_step eng acc x Hacc Hx) as (Hn & Ha & Hb).
    destruct (IH _ Hn Hxs) as [Hr Hall]. split.
    + exact (leb_trans _ _ _ Hr Ha).
    + intros y [<-|Hy]; [exact (leb_trans _ _ _ Hr Hb) | now apply Hall].
Qed.

(** The extremes of a list without NaN bound the list, with every
    engine. *)
Lemma reduce_bounds (eng : pl.Engine) (xs : list Binary64.t)
  (m M : Binary64.t) :
  no_nan xs = true ->
  pl.reduce (pl.fmin eng) xs = Some m ->
  pl.reduce (pl.fmax eng) xs = Some M ->
  forall x, In x xs -> Binary64.leb m x = true /\ Binary64.leb x M = true.
Proof.
  intros Hnan. destruct xs as [|v vs]; simpl; [discriminate|].
  intros [= <-] [= <-].
  simpl in Hnan. apply andb_prop in Hnan as [Hv Hvs].
  apply negb_true_iff in Hv.
  destruct (fold_fmin_lower eng vs v Hv Hvs) as [Hlo Hlos].
  destruct (fold_fmax_upper eng vs v Hv Hvs) as [Hhi His].
  intros x [<-|Hx]; split; auto.
Qed.

Lemma non_null_length {A : Type} (v : list (option A)) :
  (List.length (pl.non_null v) <= List.length v)%nat.
Proof. induction v as [|[a|] v IH]; simpl; lia. Qed.

Lemma count_non_null_le_len (s : pl.Series) :
  pl.count_non_null s <= Z.of_nat (pl.len s).
Proof.
  destruct s as [v|v|v|v|v]; simpl; apply inj_le, non_null_length.
Qed.

(** The count of a column whose cells all coerce is the number of its
    values. *)
Lemma count_values (s : pl.Series) :
  all_coerce s = true ->
  pl.count_non_null s = Z.of_nat (List.length (values_of s)).
Proof.
  intros Hall. unfold values_of.
  pose proof (cast_Float64_count polars "" s (numeric_view s)) as Hcount.
  rewrite cast_Float64_view, Hall in Hcount. symmetry. now apply Hcount.
Qed.

(* ================================================================== *)
(** * More on the statistics *)
(* ================================================================== *)

Section Returned.

Variable eng : pl.Engine.
Variable fs : pl.FileSystem.
Variable path : pl.Path.
Variable name : string.
Variable df : pl.DataFrame.
Variable s : pl.Series.
Variable st : SelectedStats.t.

Hypothesis Hfile : fs path = pl.Csv df.
Hypothesis Hplain : pl.is_plain name = true.
Hypothesis Hcol : pl.get_column df name = Some s.
Hypothesis Hrun : process_csv eng fs path name = Ok st.

Lemma returned_stats : all_coerce s = true /\ st = expected_stats eng s.
Proof.
  rewrite (process_csv_column eng fs path name df s Hfile Hplain Hcol),
    cast_Float64_view in Hrun.
  destruct (all_coerce s) eqn:Hall; [|discriminate].
  injection Hrun as <-. split; reflexivity.
Qed.

(** X8.  Whenever [process_csv] returns, the statistics describe one
    population: every non-null cell of the column coerced, and [count]
    is the number of these values.  [count] lies between zero and the
    number of rows, [sum] is always present, and a reported [mean] is
    the binary64 quotient of the reported [sum] by [count], whatever the
    order in which the engine adds. *)
Theorem one_population :
  all_coerce s = true
  /\ SelectedStats.count st = Z.of_nat (List.length (values_of s))
  /\ 0 <= SelectedStats.count st <= Z.of_nat (pl.len s)
  /\ SelectedStats.sum st <> None
  /\ forall total m,
       SelectedStats.sum st = Some total ->
       SelectedStats.mean st = Some m ->
       m = Binary64.div total (Binary64.of_Z (SelectedStats.count st)).
Proof.
  destruct returned_stats as [Hall ->].
  pose proof (count_values s Hall) as Hcount.
  unfold expected_stats, stats_of.
  cbn [SelectedStats.count SelectedStats.sum SelectedStats.mean].
  split; [exact Hall|]. split; [exact Hcount|].
  split; [split; [rewrite Hcount; lia | apply count_non_null_le_len]|].
  rewrite Hcount. unfold pl.agg_sum, pl.agg_mean, values_of.
  destruct (pl.non_null (numeric_view s)); split; try discriminate.
  intros total m [= <-] [= <-]. reflexivity.
Qed.

(** X9.  A reported minimum or maximum is one of the values of the
    column. *)
Theorem extremes_are_values :
  (forall m, SelectedStats.min st = Some m -> In m (values_of s))
  /\ (forall M, SelectedStats.max st = Some M -> In M (values_of s)).
Proof.
  destruct returned_stats as [_ ->]. simpl. split; intros r Hr.
  - exact (reduce_in _ (fmin_choice eng) _ _ Hr).
  - exact (reduce_in _ (fmax_choice eng) _ _ Hr).
Qed.

(** X10.  When no value of the column is NaN, the reported minimum is
    below or equal to every value and the reported maximum is above or
    equal to every value; in particular [min <= max]. *)
Theorem extremes_bound_values :
  no_nan (values_of s) = true ->
  forall m M,
    SelectedStats.min st = Some m -> SelectedStats.max st = Some M ->
    Binary64.leb m M = true
    /\ forall x, In x (values_of s) ->
                 Binary64.leb m x = true /\ Binary64.leb x M = true.
Proof.
  intros Hnan m M. destruct returned_stats as [_ ->].
  unfold expected_stats, stats_of, pl.agg_min, pl.agg_max.
  cbn [SelectedStats.min SelectedStats.max].
  change (pl.non_null (numeric_view s)) with (values_of s).
  intros Hm HM.
  pose proof (reduce_bounds eng _ m M Hnan Hm HM) as Hall.
  split; [|exact Hall].
  pose proof (reduce_in _ (fmin_choice eng) _ _ Hm) as Hin.
  destruct (Hall m Hin) as [_ H]. exact H.
Qed.

End Returned.

Lemma one_population_witness :
  disk "numbers.csv" = pl.Csv numbers_csv
  /\ pl.is_plain "amount" = true
  /\ pl.get_column numbers_csv "amount"
     = Some (pl.Int64Series [Some 10; Some 20; Some 30])
  /\ process_csv polars disk "numbers.csv" "amount"
     = Ok {| SelectedStats.count := 3;
             SelectedStats.min := Some (f64 10);
             SelectedStats.max := Some (f64 30);
             SelectedStats.sum := Some (f64 60);
             SelectedStats.mean := Some (f64 20) |}
  /\ (all_coerce (pl.Int64Series [Some 10; Some 20; Some 30]) = true
      /\ 3 = Z.of_nat
               (List.length
                  (values_of (pl.Int64Series [Some 10; Some 20; Some 30])))
      /\ 0 <= 3 <= 3
      /\ Some (f64 60) <> None
      /\ forall total m,
           Some (f64 60) = Some total ->
           Some (f64 20) = Some m ->
           m = Binary64.div total (Binary64.of_Z 3)).
Proof.
  refine (conj eq_refl (conj eq_refl (conj eq_refl (conj eq_refl _)))).
  exact (one_population polars disk "numbers.csv" "amount" numbers_csv
           (pl.Int64Series [Some 10; Some 20; Some 30])
           {| SelectedStats.count := 3;
              SelectedStats.min := Some (f64 10);
              SelectedStats.max := Some (f64 30);
              SelectedStats.sum := Some (f64 60);
              SelectedStats.mean := Some (f64 20) |}
           eq_refl eq_refl eq_refl eq_refl).
Defined.

Lemma extremes_are_values_witness :
  disk "numbers.csv" = pl.Csv numbers_csv
  /\ pl.is_plain "amount" = true
  /\ pl.get_column numbers_csv "amount"
     = Some (pl.Int64Series [Some 10; Some 20; Some 30])
  /\ process_csv polars disk "numbers.csv" "amount"
     = Ok {| SelectedStats.count := 3;
             SelectedStats.min := Some (f64 10);
             SelectedStats.max := Some (f64 30);
             SelectedStats.sum := Some (f64 60);
             SelectedStats.mean := Some (f64 20) |}
  /\ ((forall m, Some (f64 10) = Some m ->
                 In m (values_of (pl.Int64Series [Some 10; Some 20; Some 30])))
      /\ (forall M, Some (f64 30) = Some M ->
                    In M (values_of (pl.Int64Series [Some 10; Some 20; Some 30])))).
Proof.
  refine (conj eq_refl (conj eq_refl (conj eq_refl (conj eq_refl _)))).
  exact (extremes_are_values polars disk "numbers.csv" "amount" numbers_csv
           (pl.Int64Series [Some 10; Some 20; Some 30])
           {| SelectedStats.count := 3;
              SelectedStats.min := Some (f64 10);
              SelectedStats.max := Some (f64 30);
              SelectedStats.sum := Some (f64 60);
              SelectedStats.mean := Some (f64 20) |}
           eq_refl eq_refl eq_refl eq_refl).
Defined.

Lemma extremes_bound_values_witness :
  disk "numbers.csv" = pl.Csv numbers_csv
  /\ pl.is_plain "amount" = true
  /\ pl.get_column numbers_csv "amount"
     = Some (pl.Int64Series [Some 10; Some 20; Some 30])
  /\ process_csv polars disk "numbers.csv" "amount"
     = Ok {| SelectedStats.count := 3;
             SelectedStats.min := Some (f64 10);
             SelectedStats.max := Some (f64 30);
             SelectedStats.sum := Some (f64 60);
             SelectedStats.mean := Some (f64 20) |}
  /\ no_nan (values_of (pl.Int64Series [Some 10; Some 20; Some 30])) = true
  /\ (Binary64.leb (f64 10) (f64 30) = true
      /\ forall x,
           In x (values_of (pl.Int64Series [Some 10; Some 20; Some 30])) ->
           Binary64.leb (f64 10) x = true /\ Binary64.leb x (f64 30) = true).
Proof.
  refine (conj eq_refl (conj eq_refl (conj eq_refl (conj eq_refl
            (conj eq_refl _))))).
  exact (extremes_bound_values polars disk "numbers.csv" "amount" numbers_csv
           (pl.Int64Series [Some 10; Some 20; Some 30])
           {| SelectedStats.count := 3;
              SelectedStats.min := Some (f64 10);
              SelectedStats.max := Some (f64 30);
              SelectedStats.sum := Some (f64 60);
              SelectedStats.mean := Some (f64 20) |}
           eq_refl eq_refl eq_refl eq_refl eq_refl
           (f64 10) (f64 30) eq_refl eq_refl).
Defined.

(** X11.  Null cells, the dtype of the column and the engine's order of
    work do not change what is counted and what the extremes are: two
    runs over columns whose non-null cells coerce to the same values
    report the same [count], report [min] and [max] together or not at
    all, and, when no value is NaN, report minima that compare equal and
    maxima that compare equal.  (Nothing is said of [sum] and [mean]:
    they depend on the order in which the engine adds.) *)
Theorem same_values_same_result (eng1 eng2 : pl.Engine)
  (fs1 fs2 : pl.FileSystem) (path1 path2 : pl.Path) (name1 name2 : string)
  (df1 df2 : pl.DataFrame) (s1 s2 : pl.Series) (st1 st2 : SelectedStats.t) :
  fs1 path1 = pl.Csv df1 -> pl.is_plain name1 = true ->
  pl.get_column df1 name1 = Some s1 ->
  fs2 path2 = pl.Csv df2 -> pl.is_plain name2 = true ->
  pl.get_column df2 name2 = Some s2 ->
  values_of s1 = values_of s2 ->
  process_csv eng1 fs1 path1 name1 = Ok st1 ->
  process_csv eng2 fs2 path2 name2 = Ok st2 ->
  SelectedStats.count st1 = SelectedStats.count st2
  /\ (SelectedStats.min st1 = None <-> SelectedStats.min st2 = None)
  /\ (SelectedStats.max st1 = None <-> SelectedStats.max st2 = None)
  /\ (no_nan (values_of s1) = true ->
      (forall m1 m2,
         SelectedStats.min st1 = Some m1 -> SelectedStats.min st2 = Some m2 ->
         Binary64.leb m1 m2 = true /\ Binary64.leb m2 m1 = true)
      /\ (forall M1 M2,
            SelectedStats.max st1 = Some M1 -> SelectedStats.max st2 = Some M2 ->
            Binary64.leb M1 M2 = true /\ Binary64.leb M2 M1 = true)).
Proof.
  intros Hf1 Hp1 Hc1 Hf2 Hp2 Hc2 Hsame Hrun1 Hrun2.
  destruct (returned_stats eng1 fs1 path1 name1 df1 s1 st1 Hf1 Hp1 Hc1 Hrun1)
    as [Ha1 ->].
  destruct (returned_stats eng2 fs2 path2 name2 df2 s2 st2 Hf2 Hp2 Hc2 Hrun2)
    as [Ha2 ->].
  unfold expected_stats, stats_of, pl.agg_min, pl.agg_max.
  cbn [SelectedStats.count SelectedStats.min SelectedStats.max].
  change (pl.non_null (numeric_view s1)) with (values_of s1).
  change (pl.non_null (numeric_view s2)) with (values_of s2).
  rewrite (count_values s1 Ha1), (count_values s2 Ha2), <- Hsame.
  split; [reflexivity|].
  split; [rewrite !reduce_none; tauto|].
  split; [rewrite !reduce_none; tauto|].
  intros Hnan. split.
  - intros m1 m2 H1 H2.
    pose proof (reduce_in _ (fmin_choice eng1) _ _ H1) as Hin1.
    pose proof (reduce_in _ (fmin_choice eng2) _ _ H2) as Hin2.
    destruct (pl.reduce (pl.fmax eng1) (values_of s1)) as [M1|] eqn:HM1;
      [|apply reduce_none in HM1; rewrite HM1 in Hin1; contradiction].
    destruct (pl.reduce (pl.fmax eng2) (values_of s1)) as [M2|] eqn:HM2;
      [|apply reduce_none in HM2; rewrite HM2 in Hin1; contradiction].
    split.
    + exact (proj1 (reduce_bounds eng1 _ m1 M1 Hnan H1 HM1 m2 Hin2)).
    + exact (proj1 (reduce_bounds eng2 _ m2 M2 Hnan H2 HM2 m1 Hin1)).
  - intros M1 M2 H1 H2.
    pose proof (reduce_in _ (fmax_choice eng1) _ _ H1) as Hin1.
    pose proof (reduce_in _ (fmax_choice eng2) _ _ H2) as Hin2.
    destruct (pl.reduce (pl.fmin eng1) (values_of s1)) as [m1|] eqn:Hm1;
      [|apply reduce_none in Hm1; rewrite Hm1 in Hin1; contradiction].
    destruct (pl.reduce (pl.fmin eng2) (values_of s1)) as [m2|] eqn:Hm2;
      [|apply reduce_none in Hm2; rewrite Hm2 in Hin1; contradiction].
    split.
    + exact (proj2 (reduce_bounds eng2 _ m2 M2 Hnan Hm2 H2 M1 Hin1)).
    + exact (proj2 (reduce_bounds eng1 _ m1 M1 Hnan Hm1 H1 M2 Hin2)).
Qed.

Lemma same_values_same_result_witness :
  disk "numbers.csv" = pl.Csv numbers_csv
  /\ pl.is_plain "amount" = true
  /\ pl.get_column numbers_csv "amount"
     = Some (pl.Int64Series [Some 10; Some 20; Some 30])
  /\ gaps_disk "gaps.csv" = pl.Csv gaps_csv
  /\ pl.get_column gaps_csv "amount" = Some gaps_column
  /\ values_of (pl.Int64Series [Some 10; Some 20; Some 30])
     = values_of gaps_column
  /\ exists st1 st2,
       process_csv polars disk "numbers.csv" "amount" = Ok st1
       /\ process_csv sequential gaps_disk "gaps.csv" "amount" = Ok st2
       /\ SelectedStats.count st1 = SelectedStats.count st2
       /\ (SelectedStats.min st1 = None <-> SelectedStats.min st2 = None)
       /\ (SelectedStats.max st1 = None <-> SelectedStats.max st2 = None)
       /\ (no_nan (values_of (pl.Int64Series [Some 10; Some 20; Some 30]))
           = true ->
           (forall m1 m2,
              SelectedStats.min st1 = Some m1 ->
              SelectedStats.min st2 = Some m2 ->
              Binary64.leb m1 m2 = true /\ Binary64.leb m2 m1 = true)
           /\ (forall M1 M2,
                 SelectedStats.max st1 = Some M1 ->
                 SelectedStats.max st2 = Some M2 ->
                 Binary64.leb M1 M2 = true /\ Binary64.leb M2 M1 = true)).
Proof.
  refine (conj eq_refl (conj eq_refl (conj eq_refl (conj eq_refl
            (conj eq_refl (conj eq_refl _)))))).
  refine (ex_intro _ _ (ex_intro _ _ (conj eq_refl (conj eq_refl _)))).
  exact (same_values_same_result polars sequential disk gaps_disk
           "numbers.csv" "gaps.csv" "amount" "amount" numbers_csv gaps_csv
           (pl.Int64Series [Some 10; Some 20; Some 30]) gaps_column _ _
           eq_refl eq_refl eq_refl eq_refl eq_refl eq_refl
           eq_refl eq_refl eq_refl).
Defined.

(** The order of the additions shows in the sum: on 128 cells of [0.1]
    the sum in blocks and the sum from left to right differ in the last
    place. *)
Example sum_depends_on_order :
  let cells := repeat (Binary64.of_string "0.1") 128 in
  sum_in_blocks cells = S754_finite false 7205759403792793 (-49)
  /\ left_to_right cells = S754_finite false 7205759403792777 (-49).
Proof. split; vm_compute; reflexivity. Qed.

(** Of [0.0] and [-0.0], which compare equal, the engine reports the
    second both as minimum and as maximum. *)
Example signed_zero_extremes :
  let v := [Some (S754_zero false); Some (S754_zero true)] in
  pl.agg_min polars v = Some (S754_zero true)
  /\ pl.agg_max polars v = Some (S754_zero true).
Proof. split; reflexivity. Qed.

(* ================================================================== *)
(** * More on the report *)
(* ================================================================== *)

Lemma all_digits_no_breaks (s : string) :
  all_digits s = true -> line_breaks s = 0%nat.
Proof.
  induction s as [|c s IH]; simpl; [reflexivity|].
  intros H. apply andb_prop in H as [Hc Hs]. rewrite (IH Hs).
  destruct (Ascii.eqb c "010") eqn:E; [|reflexivity].
  apply Ascii.eqb_eq in E. subst c. discriminate.
Qed.

Lemma string_of_uint_no_breaks (u : Decimal.uint) :
  line_breaks (NilZero.string_of_uint u) = 0%nat.
Proof.
  destruct u; try reflexivity;
    apply all_digits_no_breaks; exact (all_digits_uint _).
Qed.

Lemma decimal_of_Z_no_breaks (z : Z) :
  line_breaks (Binary64.decimal_of_Z z) = 0%nat.
Proof.
  unfold Binary64.decimal_of_Z. destruct z as [|p|p]; simpl.
  - reflexivity.
  - apply string_of_uint_no_breaks.
  - apply string_of_uint_no_breaks.
Qed.

Lemma fixed4_no_breaks (neg : bool) (n : Z) :
  line_breaks (Binary64.fixed4 neg n) = 0%nat.
Proof.
  unfold Binary64.fixed4. rewrite !line_breaks_app.
  rewrite decimal_of_Z_no_breaks.
  rewrite (all_digits_no_breaks _ (proj2 (frac4_digits (n mod 10000)))).
  now destruct neg.
Qed.

Lemma format_opt_no_breaks (val : option Binary64.t) :
  line_breaks (format_opt val) = 0%nat.
Proof.
  destruct val as [[s|s| |s m e]|]; simpl;
    try apply fixed4_no_breaks; try reflexivity.
  now destruct s.
Qed.

(** X12.  The report of a successful run has seven lines, plus as many
    as the column name has line breaks: no rendered field ever breaks a
    line. *)
Theorem report_has_seven_lines (eng : pl.Engine) (fs : pl.FileSystem)
  (args : Namespace) (st : SelectedStats.t) :
  process_csv eng fs (file_path args) (column_name args) = Ok st ->
  line_breaks (stdout (main eng fs args))
  = (7 + line_breaks (column_name args))%nat.
Proof.
  intros Hrun. unfold main. rewrite Hrun. simpl stdout.
  rewrite report_layout. unfold layout.
  rewrite !line_breaks_app, !format_opt_no_breaks, decimal_of_Z_no_breaks.
  simpl. lia.
Qed.

Lemma report_has_seven_lines_witness :
  process_csv polars disk "numbers.csv" "amount"
  = Ok {| SelectedStats.count := 3;
          SelectedStats.min := Some (f64 10);
          SelectedStats.max := Some (f64 30);
          SelectedStats.sum := Some (f64 60);
          SelectedStats.mean := Some (f64 20) |}
  /\ line_breaks
       (stdout (main polars disk
                  {| file_path := "numbers.csv"; column_name := "amount" |}))
     = (7 + line_breaks "amount")%nat.
Proof.
  refine (conj eq_refl _).
  exact (report_has_seven_lines polars disk
           {| file_path := "numbers.csv"; column_name := "amount" |}
           _ eq_refl).
Defined.

Lemma scaled4_whole (m : positive) (e : Z) :
  is_whole m e = true ->
  Binary64.scaled4 m e = whole_value m e * 10000.
Proof.
  unfold is_whole, whole_value, Binary64.scaled4.
  destruct (0 <=? e) eqn:He; cbn [orb]; [reflexivity|].
  intros Hmod. apply Z.eqb_eq in Hmod. apply Z.leb_gt in He.
  assert (Hd : 0 < 2 ^ (- e)) by (apply Z.pow_pos_nonneg; lia).
  set (d := 2 ^ (- e)) in *.
  pose proof (Z.div_mod (Zpos m) d ltac:(lia)) as Hdiv.
  rewrite Hmod, Z.add_0_r in Hdiv.
  set (q := Zpos m / d) in *.
  unfold Binary64.round_half_even.
  replace (Zpos m * 10000) with (q * 10000 * d) by (rewrite Hdiv; ring).
  rewrite Z.div_mul, Z.mod_mul by lia.
  destruct (2 * 0 ?= d) eqn:Hc; try reflexivity;
    apply Z.compare_eq_iff in Hc || apply Z.compare_gt_iff in Hc; lia.
Qed.

(** X13.  A finite value that is a whole number is printed as that
    number followed by [.0000]: no digit is lost or invented. *)
Theorem whole_number_format (s : bool) (m : positive) (e : Z) :
  is_whole m e = true ->
  format_opt (Some (S754_finite s m e))
  = (if s then "-" else "")
    ++ Binary64.decimal_of_Z (whole_value m e) ++ ".0000".
Proof.
  intros Hwhole. unfold format_opt, Binary64.format_4f, Binary64.fixed4.
  rewrite (scaled4_whole m e Hwhole).
  rewrite Z.div_mul, Z.mod_mul by lia. reflexivity.
Qed.

Lemma whole_number_format_witness :
  is_whole 5629499534213120 (-49) = true
  /\ f64 10 = S754_finite false 5629499534213120 (-49)
  /\ format_opt (Some (S754_finite false 5629499534213120 (-49)))
     = "" ++ Binary64.decimal_of_Z (whole_value 5629499534213120 (-49))
       ++ ".0000".
Proof.
  refine (conj eq_refl (conj eq_refl _)).
  exact (whole_number_format false 5629499534213120 (-49) eq_refl).
Defined.

Lemma decimal_of_Z_first (z : Z) (rest : string) :
  0 <= z -> starts_with_minus (Binary64.decimal_of_Z z ++ rest) = false.
Proof.
  intros Hz. pose proof (decimal_of_Z_plain z Hz) as Hp.
  unfold plain_integer in Hp. apply andb_prop in Hp as [Hne Hdig].
  destruct (Binary64.decimal_of_Z z) as [|c r]; [discriminate|].
  simpl in Hdig. apply andb_prop in Hdig as [Hc _]. simpl.
  destruct (Ascii.eqb c "-") eqn:E; [|reflexivity].
  apply Ascii.eqb_eq in E. subst c. discriminate.
Qed.

(** X14.  A field starts with a minus sign exactly when the sign bit of
    the value is set: a negative value that rounds to zero is printed as
    [-0.0000], and so is negative zero. *)
Theorem minus_sign_is_sign_bit (x : Binary64.t) :
  starts_with_minus (format_opt (Some x)) = sign_bit x.
Proof.
  assert (Hfixed : forall s n, 0 <= n ->
            starts_with_minus (Binary64.fixed4 s n) = s).
  { intros s n Hn. unfold Binary64.fixed4. destruct s; [reflexivity|].
    change ("" ++ ?t) with t. apply decimal_of_Z_first, Z.div_pos; lia. }
  destruct x as [s|s| |s m e]; simpl.
  - now apply Hfixed.
  - now destruct s.
  - reflexivity.
  - apply Hfixed, scaled4_nonneg.
Qed.

(** X15.  The whole run for a column that is not there: for a file that
    reads as CSV and a plain column name its header lacks, [main] prints
    nothing on standard output, the one line naming the column on
    standard error, and ends with status 1. *)
Theorem main_missing_column (eng : pl.Engine) (fs : pl.FileSystem)
  (args : Namespace) (df : pl.DataFrame) :
  fs (file_path args) = pl.Csv df ->
  pl.is_plain (column_name args) = true ->
  pl.mem (column_name args) (pl.columns df) = false ->
  main eng fs args
  = {| stdout := "";
       stderr := "Error: Column '" ++ column_name args
                 ++ "' not found in the file." ++ newline;
       uncaught := None;
       exit_status := 1 |}.
Proof.
  intros Hfs Hplain Hmem. unfold main.
  rewrite (process_csv_unknown eng fs _ _ _ Hfs
             (ColumnNotFoundError (column_name args))).
  - simpl. unfold print. simpl. now rewrite append_assoc.
  - now rewrite header_csv, (selected_plain eng _ _ Hplain), Hmem.
Qed.

Lemma main_missing_column_witness :
  disk "numbers.csv" = pl.Csv numbers_csv
  /\ pl.is_plain "Amount" = true
  /\ pl.mem "Amount" (pl.columns numbers_csv) = false
  /\ main polars disk {| file_path := "numbers.csv"; column_name := "Amount" |}
     = {| stdout := "";
          stderr := "Error: Column '" ++ "Amount"
                    ++ "' not found in the file." ++ newline;
          uncaught := None;
          exit_status := 1 |}.
Proof.
  refine (conj eq_refl (conj eq_refl (conj eq_refl _))).
  exact (main_missing_column polars disk
           {| file_path := "numbers.csv"; column_name := "Amount" |}
           numbers_csv eq_refl eq_refl eq_refl).
Defined.

(* ================================================================== *)
(** * When [process_csv] returns *)
(* ================================================================== *)

(** X16.  [process_csv] returns statistics exactly when the reader finds
    a header in the file, the column name selects exactly one column of
    the header, the cells of that column can be read, and every non-null
    cell of it coerces to a number.  The other columns of the file do not
    matter. *)
Theorem returns_iff (eng : pl.Engine) (fs : pl.FileSystem)
  (path : pl.Path) (name : string) :
  (exists st, process_csv eng fs path name = Ok st)
  <-> exists cols n s,
        fs path = pl.Table cols
        /\ pl.selected eng (pl.header cols) name = Ok [n]
        /\ pl.lookup cols n = Some (pl.Read s)
        /\ all_coerce s = true.
Proof.
  split.
  - intros [st Hrun].
    destruct (process_csv_ok_file _ _ _ _ _ Hrun) as [cols Hfs].
    destruct (process_csv_ok eng fs path name cols Hfs st Hrun)
      as (n & s & v & Hsel & Hcol & Hcast & _).
    exists cols, n, s. repeat split; try assumption.
    rewrite cast_Float64_view in Hcast.
    destruct (all_coerce s); [reflexivity | discriminate].
  - intros (cols & n & s & Hfs & Hsel & Hcol & Hall).
    exists (expected_stats eng s).
    rewrite (process_csv_one eng fs path name cols Hfs n s Hsel Hcol),
      cast_Float64_view, Hall.
    reflexivity.
Qed.

(** On a file that the reader rejects past the header, the readable
    column still gives statistics. *)
Example readable_column_of_rejected_file :
  process_csv polars disk "late.csv" "a"
  = Ok {| SelectedStats.count := 3;
          SelectedStats.min := Some (f64 1);
          SelectedStats.max := Some (f64 3);
          SelectedStats.sum := Some (f64 6);
          SelectedStats.mean := Some (f64 2) |}.
Proof. vm_compute. reflexivity. Qed.
